(** * TailingsIQ API: a shallow embedding of [backend/main.py]

    The program is a FastAPI application with three in-memory globals
    ([facilities_db], [risk_assessments_db], [facility_counter]), a pair of
    authentication helpers built on PyJWT, and six route handlers.

    Conventions of the embedding:
    - Python [int] is [Z]; [str] is [string]; [dict] with string keys is
      [gmap string _]; [list] is [list]; [float] is the kernel's binary64
      [float], so that comparisons such as [risk_score < 0.3] are the very
      IEEE comparisons Python performs.
    - A naive UTC [datetime] is the number of microseconds since the epoch
      (its resolution in Python); a [timedelta] is a number of microseconds.
      Sums of the two are taken on [Z]: the [OverflowError] Python raises
      outside the years 1 to 9999 is not part of the embedding, and the
      properties about arbitrary durations assume [in_datetime_range].
    - Every reading of the environment (the clock, the random generator) is
      an explicit argument of the function that performs it.
    - Exceptions are values of [exn]; a function that may raise returns a
      [result].  Handlers that touch the globals are state transformers. *)

From Stdlib Require Import ZArith QArith Floats Uint63 Lia Ascii.
From stdpp Require Import base decidable option list strings gmap.

Set Warnings "-inexact-float,-clear-no-such-hyp".
Local Open Scope Z_scope.

(** ** Python values and exceptions *)

(** The values that occur in token payloads: [None], integers, strings and
    (before encoding only) datetimes. *)
Inductive pyval : Type :=
| PyNone
| PyInt (n : Z)
| PyStr (s : string)
| PyDatetime (t : Z).

#[global] Instance pyval_eq_dec : EqDecision pyval.
Proof. solve_decision. Defined.

(** [dict.get(key)]: the value, or [None] when the key is missing. *)
Definition dict_get (d : gmap string pyval) (key : string) : pyval :=
  default PyNone (d !! key).

(** [x is None] *)
Definition is_none (v : pyval) : bool :=
  match v with PyNone => true | _ => false end.

(** [fastapi.HTTPException(status_code, detail, headers)] *)
Record HTTPException : Type := mkHTTPException {
  status_code : Z;
  detail : string;
  headers : option (gmap string string)
}.

Definition HTTP_401_UNAUTHORIZED : Z := 401.

(** The exception classes of PyJWT that [jwt.decode] raises on this
    program's call; all derive from [jwt.PyJWTError]. *)
Inductive PyJWTError : Type :=
| DecodeError
| InvalidAlgorithmError
| InvalidSignatureError
| InvalidIssuedAtError
| ImmatureSignatureError
| ExpiredSignatureError
| InvalidAudienceError
| InvalidSubjectError
| InvalidJTIError.

Inductive exn : Type :=
| HTTPExn (e : HTTPException)
| JWTExn (e : PyJWTError)
| TypeError.

Inductive result (A : Type) : Type :=
| Return (a : A)
| Raise (e : exn).

Arguments Return {A} a.
Arguments Raise {A} e.

#[global] Instance result_ret : MRet result := @Return.
#[global] Instance result_bind : MBind result := λ A B f m,
  match m with
  | Return a => f a
  | Raise e => Raise e
  end.

(** ** Time *)

Definition usec_per_sec : Z := 1000000.

(** [timedelta(minutes=n)] *)
Definition timedelta_minutes (n : Z) : Z := n * 60 * usec_per_sec.

(** [calendar.timegm(dt.utctimetuple())]: the time tuple has no
    microseconds, so this is the whole number of seconds since the epoch. *)
Definition timegm (dt : Z) : Z := dt / usec_per_sec.

(** ** PyJWT, as far as this program calls it

    A compact JWS is modelled structurally: the algorithm named in its
    header, its claims, and its signature.  A string that does not parse as
    a JWS is [Unparsable].

    HMAC first brings the key to the block size of the hash: a key of at
    most 64 bytes is padded with zero bytes, so that trailing zero bytes do
    not matter, and a longer key is replaced by its digest, which is kept
    symbolic.  Beyond that the tag is a symbolic term over the algorithm,
    the block key and the claims.

    [encode] follows [jwt.encode]: datetimes under the time claims [exp],
    [iat] and [nbf] become integer NumericDates through [timegm]; an [iss]
    that is not a string is a [TypeError]; the payload is then serialised
    as JSON, which fails with [TypeError] on any remaining datetime.

    [decode] follows [jwt.decode(token, key, algorithms=[...])] of PyJWT 2
    (2.10 and later) with its default options: parse, check the header
    algorithm against [algorithms], verify the signature, then validate the
    registered claims in the library's order, against the clock reading
    [now] and with no leeway: [iat] (in the future: immature), [nbf]
    ([nbf > now]: immature), [exp] ([exp <= now]: expired), [aud] (no
    audience is expected, so a non-empty one is refused), [sub] and [jti]
    (strings when present).  The library converts a time claim with
    [int(...)] and turns only [ValueError] into its own error: a text that
    is no number is refused, a numeric text counts as its number, and
    [None] raises [TypeError].

    The model takes the key to be one PyJWT accepts as an HMAC secret. *)
Module jwt.

Fixpoint strip_trailing_nul (key : string) : string :=
  match key with
  | String.EmptyString => String.EmptyString
  | String.String c rest =>
      match strip_trailing_nul rest with
      | String.EmptyString =>
          if Ascii.eqb c Ascii.zero then String.EmptyString
          else String.String c String.EmptyString
      | rest' => String.String c rest'
      end
  end.

Inductive block_key : Type :=
| PaddedKey (key : string)
| DigestOfKey (key : string).

#[global] Instance block_key_eq_dec : EqDecision block_key.
Proof. solve_decision. Defined.

Definition to_block_key (key : string) : block_key :=
  if (String.length key <=? 64)%nat then PaddedKey (strip_trailing_nul key)
  else DigestOfKey key.

Inductive mac : Type :=
| Tag (alg : string) (key : block_key) (msg : gmap string pyval).

#[global] Instance mac_eq_dec : EqDecision mac.
Proof. solve_decision. Defined.

Definition HMAC (alg key : string) (msg : gmap string pyval) : mac :=
  Tag alg (to_block_key key) msg.

Inductive token : Type :=
| Unparsable (raw : string)
| Jws (alg : string) (payload : gmap string pyval) (signature : mac).

(** *** [int(...)] on a claim

    On text, [int] reads an optional sign and decimal digits, with single
    underscores between digits and white space around.  Text that is not
    ASCII, and Python's limit on the number of digits, are not modelled. *)

Definition is_space (c : ascii) : bool :=
  let n := nat_of_ascii c in
  ((9 <=? n) && (n <=? 13) || (28 <=? n) && (n <=? 32))%nat.

Definition digit_of (c : ascii) : option Z :=
  let n := nat_of_ascii c in
  if ((48 <=? n) && (n <=? 57))%nat then Some (Z.of_nat n - 48) else None.

Fixpoint drop_spaces (l : list ascii) : list ascii :=
  match l with
  | c :: rest => if is_space c then drop_spaces rest else l
  | [] => []
  end.

(** The digits at the front of [l], with what follows them; [after_digit]
    says whether the character before was a digit. *)
Fixpoint read_digits (l : list ascii) (acc : Z) (after_digit : bool)
  : option (Z * list ascii) :=
  match l with
  | c :: rest =>
      match digit_of c with
      | Some d => read_digits rest (10 * acc + d) true
      | None =>
          if Ascii.eqb c "_"%char
          then if after_digit then read_digits rest acc false else None
          else if after_digit then Some (acc, l) else None
      end
  | [] => if after_digit then Some (acc, []) else None
  end.

Definition int_of_str (s : string) : option Z :=
  let l := drop_spaces (String.list_ascii_of_string s) in
  let '(negative, l) :=
    match l with
    | c :: rest =>
        if Ascii.eqb c "-"%char then (true, rest)
        else if Ascii.eqb c "+"%char then (false, rest)
        else (false, l)
    | [] => (false, l)
    end in
  match read_digits l 0 false with
  | Some (n, rest) =>
      match drop_spaces rest with
      | [] => Some (if negative then - n else n)
      | _ => None
      end
  | None => None
  end.

Inductive int_result : Type :=
| IntOk (n : Z)
| IntValueError
| IntTypeError.

Definition py_int (v : pyval) : int_result :=
  match v with
  | PyInt n => IntOk n
  | PyStr s =>
      match int_of_str s with
      | Some n => IntOk n
      | None => IntValueError
      end
  | PyNone | PyDatetime _ => IntTypeError
  end.

(** [bool(v)] *)
Definition truthy (v : pyval) : bool :=
  match v with
  | PyNone => false
  | PyInt n => negb (n =? 0)
  | PyStr s => negb (String.eqb s "")
  | PyDatetime _ => true
  end.

Definition is_str (v : pyval) : bool :=
  match v with
  | PyStr _ => true
  | _ => false
  end.

Definition to_numeric_date (v : pyval) : pyval :=
  match v with
  | PyDatetime dt => PyInt (timegm dt)
  | _ => v
  end.

Definition json_serializable (v : pyval) : bool :=
  match v with
  | PyDatetime _ => false
  | _ => true
  end.

Definition encode (payload : gmap string pyval) (key algorithm : string)
  : result token :=
  let payload :=
    alter to_numeric_date "nbf"
      (alter to_numeric_date "iat"
         (alter to_numeric_date "exp" payload)) in
  match payload !! "iss" with
  | Some iss => if is_str iss then Return tt else Raise TypeError
  | None => Return tt
  end ≫= λ _,
  if decide (map_Forall (λ _ v, json_serializable v = true) payload)
  then Return (Jws algorithm payload (HMAC algorithm key payload))
  else Raise TypeError.

Definition validate_iat (payload : gmap string pyval) (now : Z) : result unit :=
  match payload !! "iat" with
  | None => Return tt
  | Some v =>
      match py_int v with
      | IntOk iat =>
          if decide (now < iat * usec_per_sec)
          then Raise (JWTExn ImmatureSignatureError)
          else Return tt
      | IntValueError => Raise (JWTExn InvalidIssuedAtError)
      | IntTypeError => Raise TypeError
      end
  end.

Definition validate_nbf (payload : gmap string pyval) (now : Z) : result unit :=
  match payload !! "nbf" with
  | None => Return tt
  | Some v =>
      match py_int v with
      | IntOk nbf =>
          if decide (now < nbf * usec_per_sec)
          then Raise (JWTExn ImmatureSignatureError)
          else Return tt
      | IntValueError => Raise (JWTExn DecodeError)
      | IntTypeError => Raise TypeError
      end
  end.

Definition validate_exp (payload : gmap string pyval) (now : Z) : result unit :=
  match payload !! "exp" with
  | None => Return tt
  | Some v =>
      match py_int v with
      | IntOk exp =>
          if decide (exp * usec_per_sec ≤ now)
          then Raise (JWTExn ExpiredSignatureError)
          else Return tt
      | IntValueError => Raise (JWTExn DecodeError)
      | IntTypeError => Raise TypeError
      end
  end.

Definition validate_aud (payload : gmap string pyval) : result unit :=
  match payload !! "aud" with
  | Some aud =>
      if truthy aud then Raise (JWTExn InvalidAudienceError) else Return tt
  | None => Return tt
  end.

Definition validate_sub (payload : gmap string pyval) : result unit :=
  match payload !! "sub" with
  | Some sub =>
      if is_str sub then Return tt else Raise (JWTExn InvalidSubjectError)
  | None => Return tt
  end.

Definition validate_jti (payload : gmap string pyval) : result unit :=
  match payload !! "jti" with
  | Some jti =>
      if is_str jti then Return tt else Raise (JWTExn InvalidJTIError)
  | None => Return tt
  end.

Definition validate_claims (payload : gmap string pyval) (now : Z)
  : result (gmap string pyval) :=
  _ ← validate_iat payload now;
  _ ← validate_nbf payload now;
  _ ← validate_exp payload now;
  _ ← validate_aud payload;
  _ ← validate_sub payload;
  _ ← validate_jti payload;
  Return payload.

Definition decode (tok : token) (key : string) (algorithms : list string)
    (now : Z) : result (gmap string pyval) :=
  match tok with
  | Unparsable _ => Raise (JWTExn DecodeError)
  | Jws alg payload signature =>
      if negb (bool_decide (alg ∈ algorithms))
      then Raise (JWTExn InvalidAlgorithmError)
      else if negb (bool_decide (signature = HMAC alg key payload))
      then Raise (JWTExn InvalidSignatureError)
      else validate_claims payload now
  end.

End jwt.

(** ** Configuration and models *)

Definition ALGORITHM : string := "HS256".
Definition ACCESS_TOKEN_EXPIRE_MINUTES : Z := 30.

(** The value [SECRET_KEY] takes when the environment does not set it. *)
Definition DEFAULT_SECRET_KEY : string := "your-secret-key-here".

Record Token : Type := mkToken {
  access_token : jwt.token;
  token_type : string
}.

Record OAuth2PasswordRequestForm : Type := mkForm {
  username : string;
  password : string
}.

(** ** Authentication functions *)

Section Authentication.

(** [SECRET_KEY = os.getenv("SECRET_KEY", "your-secret-key-here")]: fixed at
    import time, arbitrary here. *)
Variable SECRET_KEY : string.

(** [if expires_delta:] is false for [None] and for [timedelta(0)]. *)
Definition timedelta_truthy (expires_delta : option Z) : bool :=
  match expires_delta with
  | Some d => negb (d =? 0)
  | None => false
  end.

(** The payload [create_access_token] hands to [jwt.encode] (lines 56-61);
    [utcnow] is the reading of [datetime.utcnow()]. *)
Definition to_encode (data : gmap string pyval) (expires_delta : option Z)
    (utcnow : Z) : gmap string pyval :=
  let expire :=
    if timedelta_truthy expires_delta
    then utcnow + default 0 expires_delta
    else utcnow + timedelta_minutes 15 in
  <["exp" := PyDatetime expire]> data.

Definition create_access_token (data : gmap string pyval)
    (expires_delta : option Z) (utcnow : Z) : result jwt.token :=
  jwt.encode (to_encode data expires_delta utcnow) SECRET_KEY ALGORITHM.

Definition credentials_exception : HTTPException :=
  {| status_code := HTTP_401_UNAUTHORIZED;
     detail := "Could not validate credentials";
     headers := Some {[ "WWW-Authenticate" := "Bearer" ]} |}.

(** [now] is the clock reading [jwt.decode] takes.  The [except] clause
    catches [jwt.PyJWTError] only: the [HTTPException] raised inside the
    [try] block, and any other exception, propagate. *)
Definition verify_token (token : jwt.token) (now : Z) : result pyval :=
  match jwt.decode token SECRET_KEY [ALGORITHM] now with
  | Return payload =>
      let username := dict_get payload "sub" in
      if is_none username
      then Raise (HTTPExn credentials_exception)
      else Return username
  | Raise (JWTExn _) => Raise (HTTPExn credentials_exception)
  | Raise e => Raise e
  end.

Definition login_exception : HTTPException :=
  {| status_code := HTTP_401_UNAUTHORIZED;
     detail := "Incorrect username or password";
     headers := Some {[ "WWW-Authenticate" := "Bearer" ]} |}.

(** [POST /token] *)
Definition login (form_data : OAuth2PasswordRequestForm) (utcnow : Z)
  : result Token :=
  if String.eqb (username form_data) "demo"
     && String.eqb (password form_data) "demo"
  then
    let access_token_expires := timedelta_minutes ACCESS_TOKEN_EXPIRE_MINUTES in
    access_token ← create_access_token
                     {[ "sub" := PyStr (username form_data) ]}
                     (Some access_token_expires) utcnow;
    Return {| access_token := access_token; token_type := "bearer" |}
  else Raise (HTTPExn login_exception).

End Authentication.

(** ** Models of the facility store *)

Module Facility.
Record t : Type := mk {
  id : option Z;
  name : string;
  location : string;
  type : string;
  owner : string;
  status : string
}.

(** [facility.id = i]: assignment to the [id] attribute. *)
Definition set_id (facility : t) (i : Z) : t :=
  {| id := Some i;
     name := name facility;
     location := location facility;
     type := type facility;
     owner := owner facility;
     status := status facility |}.
End Facility.

Module RiskAssessment.
Record t : Type := mk {
  facility_id : Z;
  risk_score : float;
  risk_level : string;
  recommendations : list string;
  timestamp : Z
}.
End RiskAssessment.

(** ** In-memory storage *)

Record state : Type := mkState {
  facilities_db : list Facility.t;
  risk_assessments_db : list RiskAssessment.t;
  facility_counter : Z
}.

Definition initial_state : state :=
  {| facilities_db := []; risk_assessments_db := []; facility_counter := 1 |}.

(** A route handler reads and updates the globals and returns or raises. *)
Definition handler (A : Type) : Type := state → result A * state.

(** ** Rounding a float to two decimals

    [round(x, 2)] on a float is correctly rounded: CPython converts [x] to
    the decimal with two fractional digits nearest to its exact value (ties
    to even) and converts that decimal back to the nearest double.  The
    exact value of a finite double is [m * 2^e]; the nearest double to
    [k/100] is the IEEE quotient of [k] by [100], both being exact doubles
    as long as [k < 2^53], which covers every magnitude below [2^46]. *)

(** [n/d] rounded to the nearest integer, ties to even, for [0 < d]. *)
Definition half_even (n d : Z) : Z :=
  let q := n / d in
  let r := n mod d in
  if 2 * r <? d then q
  else if d <? 2 * r then q + 1
  else if Z.even q then q else q + 1.

Definition of_hundredths (k : Z) : float :=
  (PrimFloat.of_uint63 (Uint63.of_Z k) / 100)%float.

Definition round2 (x : float) : float :=
  match Prim2SF x with
  | S754_finite s m e =>
      if 0 <=? e then x
      else
        let r := of_hundredths (half_even (100 * Z.pos m) (2 ^ (- e))) in
        if s then (- r)%float else r
  | _ => x
  end.

(** The exact rational value of a finite double. *)
Definition exact_value (x : float) : option Q :=
  match Prim2SF x with
  | S754_zero _ => Some 0%Q
  | S754_finite s m e =>
      let n := if s then Z.neg m else Z.pos m in
      Some (if 0 <=? e then inject_Z (n * 2 ^ e)
            else Qmake n (2 ^ Z.to_pos (- e)))
  | _ => None
  end.

(** [a <= u <= b] on exact values.  This is the contract of
    [random.uniform(a, b)], which computes [a + (b - a) * random()] with
    [random()] in [[0, 1)]. *)
Definition between (a b u : float) : Prop :=
  ∃ qa qb qu,
    exact_value a = Some qa ∧ exact_value b = Some qb ∧
    exact_value u = Some qu ∧ (qa <= qu)%Q ∧ (qu <= qb)%Q.

(** ** Routes *)

(** [GET /facilities] *)
Definition get_facilities (current_user : pyval) : handler (list Facility.t) :=
  λ st, (Return (facilities_db st), st).

(** [POST /facilities] *)
Definition create_facility (facility : Facility.t) (current_user : pyval)
  : handler Facility.t :=
  λ st,
    let facility := Facility.set_id facility (facility_counter st) in
    (Return facility,
     {| facilities_db := facilities_db st ++ [facility];
        risk_assessments_db := risk_assessments_db st;
        facility_counter := facility_counter st + 1 |}).

(** [next((f for f in facilities_db if f.id == facility_id), None)] *)
Definition find_facility (db : list Facility.t) (facility_id : Z)
  : option Facility.t :=
  List.find (λ f, bool_decide (Facility.id f = Some facility_id)) db.

Definition not_found : HTTPException :=
  {| status_code := 404; detail := "Facility not found"; headers := None |}.

(** [GET /facilities/{facility_id}].  A model instance is always truthy, so
    [not facility] holds exactly when the lookup returned [None]. *)
Definition get_facility (facility_id : Z) (current_user : pyval)
  : handler Facility.t :=
  λ st,
    match find_facility (facilities_db st) facility_id with
    | None => (Raise (HTTPExn not_found), st)
    | Some facility => (Return facility, st)
    end.

Definition low_recommendations : list string :=
  [ "Continue regular monitoring";
    "Maintain current safety protocols" ].

Definition medium_recommendations : list string :=
  [ "Increase monitoring frequency";
    "Review safety procedures";
    "Consider additional safety measures" ].

Definition high_recommendations : list string :=
  [ "Immediate safety review required";
    "Increase monitoring to daily";
    "Consider emergency response planning";
    "Consult with safety experts" ].

(** [POST /facilities/{facility_id}/risk-assessment].  [uniform] is the
    value returned by [random.uniform(0.1, 0.9)] and [utcnow] the reading of
    [datetime.utcnow()]. *)
Definition perform_risk_assessment (facility_id : Z) (current_user : pyval)
    (uniform : float) (utcnow : Z) : handler RiskAssessment.t :=
  λ st,
    match find_facility (facilities_db st) facility_id with
    | None => (Raise (HTTPExn not_found), st)
    | Some facility =>
        let risk_score := round2 uniform in
        let '(risk_level, recommendations) :=
          if (risk_score <? 0.3)%float then ("Low", low_recommendations)
          else if (risk_score <? 0.7)%float then ("Medium", medium_recommendations)
          else ("High", high_recommendations) in
        let assessment :=
          {| RiskAssessment.facility_id := facility_id;
             RiskAssessment.risk_score := risk_score;
             RiskAssessment.risk_level := risk_level;
             RiskAssessment.recommendations := recommendations;
             RiskAssessment.timestamp := utcnow |} in
        (Return assessment,
         {| facilities_db := facilities_db st;
            risk_assessments_db := risk_assessments_db st ++ [assessment];
            facility_counter := facility_counter st |})
    end.

(** [GET /health]: the status and the reading of [datetime.utcnow()]. *)
Definition health_check (utcnow : Z) : string * Z := ("healthy", utcnow).

(** [current_user: str = Depends(verify_token)]: the route runs only when
    [verify_token] returns, on the user name it returned; when it raises,
    the route is not entered. *)
Definition depends_verify_token {A : Type} (SECRET_KEY : string)
    (token : jwt.token) (now : Z) (route : pyval → handler A) : handler A :=
  λ st,
    match verify_token SECRET_KEY token now with
    | Return current_user => route current_user st
    | Raise e => (Raise e, st)
    end.

(** A run of [POST /facilities] requests, one after the other. *)
Fixpoint create_all (requests : list (Facility.t * pyval)) (st : state)
  : list (result Facility.t) * state :=
  match requests with
  | [] => ([], st)
  | (facility, current_user) :: rest =>
      let '(r, st1) := create_facility facility current_user st in
      let '(rs, st2) := create_all rest st1 in
      (r :: rs, st2)
  end.

(** ** Vocabulary of the properties *)

(** The claims a parsed token carries; a string that is no JWS carries none. *)
Definition token_claims (tok : jwt.token) : gmap string pyval :=
  match tok with
  | jwt.Jws _ payload _ => payload
  | jwt.Unparsable _ => ∅
  end.

(** The expiry instant a token carries: its [exp] NumericDate, in seconds. *)
Definition exp_claim (tok : jwt.token) : option Z :=
  match token_claims tok !! "exp" with
  | Some (PyInt exp) => Some exp
  | _ => None
  end.

(** The token is a JWS under the configured algorithm whose signature is the
    one the key gives its claims. *)
Definition signature_valid (key : string) (tok : jwt.token) : Prop :=
  match tok with
  | jwt.Jws alg payload signature =>
      alg = ALGORITHM ∧ signature = jwt.HMAC alg key payload
  | jwt.Unparsable _ => False
  end.

Definition expired (tok : jwt.token) (now : Z) : Prop :=
  ∃ exp, exp_claim tok = Some exp ∧ exp * usec_per_sec ≤ now.

Definition sub_absent (tok : jwt.token) : Prop :=
  dict_get (token_claims tok) "sub" = PyNone.

(** An Unauthorized error that carries a [WWW-Authenticate] challenge. *)
Definition unauthorized_with_challenge (e : exn) : Prop :=
  ∃ http challenge hs,
    e = HTTPExn http ∧ status_code http = 401 ∧
    headers http = Some hs ∧ hs !! "WWW-Authenticate" = Some challenge.

Definition json_payload (data : gmap string pyval) : Prop :=
  map_Forall (λ _ v, jwt.json_serializable v = true) data.


(** No facility of the store has the identifier. *)
Definition id_absent (db : list Facility.t) (facility_id : Z) : Prop :=
  ∀ f, f ∈ db → Facility.id f ≠ Some facility_id.

(** A request body that differs from [facility] in what it supplies as [id]. *)
Definition with_client_id (facility : Facility.t) (client_id : option Z)
  : Facility.t :=
  {| Facility.id := client_id;
     Facility.name := Facility.name facility;
     Facility.location := Facility.location facility;
     Facility.type := Facility.type facility;
     Facility.owner := Facility.owner facility;
     Facility.status := Facility.status facility |}.

(** The risk level the specification gives a score. *)
Definition level_of_score (score : float) (level : string) : Prop :=
  ((score <? 0.3)%float = true ∧ level = "Low") ∨
  ((0.3 <=? score)%float = true ∧ (score <? 0.7)%float = true ∧ level = "Medium") ∨
  ((0.7 <=? score)%float = true ∧ level = "High").

(** The recommendation list the specification fixes for a risk level. *)
Definition recommendations_of_level (level : string) : list string :=
  if String.eqb level "Low" then low_recommendations
  else if String.eqb level "Medium" then medium_recommendations
  else high_recommendations.

(** For a number [k] of hundredths, the float comparisons the program and
    the specification make on the double nearest [k/100] agree with the
    comparisons of [k] with 10, 30, 70 and 90. *)
Definition hundredths_agree (k : Z) : bool :=
  let score := of_hundredths k in
  (0.1 <=? score)%float && (score <=? 0.9)%float &&
  Bool.eqb (score <? 0.3)%float (k <? 30) &&
  Bool.eqb (0.3 <=? score)%float (30 <=? k) &&
  Bool.eqb (score <? 0.7)%float (k <? 70) &&
  Bool.eqb (0.7 <=? score)%float (70 <=? k).

Definition sample_facility : Facility.t :=
  {| Facility.id := None;
     Facility.name := "North Dam";
     Facility.location := "Elko";
     Facility.type := "tailings";
     Facility.owner := "Acme";
     Facility.status := "active" |}.

(** The store after [sample_facility] was created in the initial store. *)
Definition sample_state : state :=
  {| facilities_db := [Facility.set_id sample_facility 1];
     risk_assessments_db := [];
     facility_counter := 2 |}.

(** A token for [user] signed under the default key, expiring at second 2000. *)
Definition signed_token (user : string) : jwt.token :=
  let payload : gmap string pyval :=
    {[ "sub" := PyStr user; "exp" := PyInt 2000 ]} in
  jwt.Jws ALGORITHM payload (jwt.HMAC ALGORITHM DEFAULT_SECRET_KEY payload).

Definition demo_form : OAuth2PasswordRequestForm :=
  {| username := "demo"; password := "demo" |}.

(** ** The application: credentials, routing and runs *)

#[global] Instance result_fmap : FMap result := λ A B f m,
  match m with
  | Return a => Return (f a)
  | Raise e => Raise e
  end.

Definition not_authenticated : HTTPException :=
  {| status_code := HTTP_401_UNAUTHORIZED;
     detail := "Not authenticated";
     headers := Some {[ "WWW-Authenticate" := "Bearer" ]} |}.

(** [oauth2_scheme = OAuth2PasswordBearer(tokenUrl="token")]: the bearer
    token of the [Authorization] header; a request without such a header is
    refused before [verify_token] runs. *)
Definition oauth2_scheme (authorization : option jwt.token) : result jwt.token :=
  match authorization with
  | Some token => Return token
  | None => Raise (HTTPExn not_authenticated)
  end.

(** The dependency chain of the facility routes:
    [current_user = Depends(verify_token)] with
    [token = Depends(oauth2_scheme)]. *)
Definition authenticated {A : Type} (SECRET_KEY : string)
    (authorization : option jwt.token) (now : Z) (route : pyval → handler A)
  : handler A :=
  λ st,
    match oauth2_scheme authorization with
    | Return token => depends_verify_token SECRET_KEY token now route st
    | Raise e => (Raise e, st)
    end.

(** What a request reads from its environment: the clock [jwt.decode]
    reads, the clock the handler reads, and the value
    [random.uniform(0.1, 0.9)] returns. *)
Record environment : Type := mkEnvironment {
  decode_clock : Z;
  handler_clock : Z;
  uniform_draw : float
}.

(** The routes of [app], with what each takes from the request. *)
Inductive request : Type :=
| PostToken (form_data : OAuth2PasswordRequestForm)
| GetFacilities (authorization : option jwt.token)
| PostFacilities (authorization : option jwt.token) (facility : Facility.t)
| GetFacility (authorization : option jwt.token) (facility_id : Z)
| PostRiskAssessment (authorization : option jwt.token) (facility_id : Z)
| GetHealth.

Inductive response : Type :=
| TokenBody (token : Token)
| FacilitiesBody (facilities : list Facility.t)
| FacilityBody (facility : Facility.t)
| RiskAssessmentBody (assessment : RiskAssessment.t)
| HealthBody (health : string * Z).

Definition respond {A : Type} (body : A → response) (h : handler A)
  : handler response :=
  λ st, (body <$> (h st).1, (h st).2).

(** One request served by [app]. *)
Definition serve (SECRET_KEY : string) (req : request) (env : environment)
  : handler response :=
  match req with
  | PostToken form_data =>
      λ st, (TokenBody <$> login SECRET_KEY form_data (handler_clock env), st)
  | GetFacilities authorization =>
      respond FacilitiesBody
        (authenticated SECRET_KEY authorization (decode_clock env) get_facilities)
  | PostFacilities authorization facility =>
      respond FacilityBody
        (authenticated SECRET_KEY authorization (decode_clock env)
           (create_facility facility))
  | GetFacility authorization facility_id =>
      respond FacilityBody
        (authenticated SECRET_KEY authorization (decode_clock env)
           (get_facility facility_id))
  | PostRiskAssessment authorization facility_id =>
      respond RiskAssessmentBody
        (authenticated SECRET_KEY authorization (decode_clock env)
           (λ current_user,
              perform_risk_assessment facility_id current_user
                (uniform_draw env) (handler_clock env)))
  | GetHealth =>
      λ st, (Return (HealthBody (health_check (handler_clock env))), st)
  end.

(** The store after a sequence of requests, served one after the other. *)
Definition run (SECRET_KEY : string) (requests : list (request * environment))
    (st : state) : state :=
  foldl (λ st re, (serve SECRET_KEY re.1 re.2 st).2) st requests.

(** The four ways a request can end: an error, a body without a change of
    the store, a created facility, a logged assessment. *)
Inductive outcome (st : state) (req : request) (env : environment)
  : result response * state → Prop :=
| outcome_error e :
    outcome st req env (Raise e, st)
| outcome_read body :
    (∀ authorization facility, req ≠ PostFacilities authorization facility) →
    (∀ authorization facility_id,
       req ≠ PostRiskAssessment authorization facility_id) →
    outcome st req env (Return body, st)
| outcome_created authorization facility :
    req = PostFacilities authorization facility →
    let stored := Facility.set_id facility (facility_counter st) in
    outcome st req env
      (Return (FacilityBody stored),
       {| facilities_db := facilities_db st ++ [stored];
          risk_assessments_db := risk_assessments_db st;
          facility_counter := facility_counter st + 1 |})
| outcome_assessed authorization facility_id user a st' :
    req = PostRiskAssessment authorization facility_id →
    perform_risk_assessment facility_id user (uniform_draw env)
      (handler_clock env) st = (Return a, st') →
    outcome st req env (Return (RiskAssessmentBody a), st').

(** The credentials a request carries, if its route asks for them. *)
Definition credentials (req : request) : option (option jwt.token) :=
  match req with
  | GetFacilities authorization
  | PostFacilities authorization _
  | GetFacility authorization _
  | PostRiskAssessment authorization _ => Some authorization
  | PostToken _ | GetHealth => None
  end.

(** The facilities carry the identifiers [1, 2, ...] in order, the counter
    is the next one, and every logged assessment names one of them. *)
Definition store_invariant (st : state) : Prop :=
  let n := Z.of_nat (length (facilities_db st)) in
  Facility.id <$> facilities_db st = Some <$> seqZ 1 n ∧
  facility_counter st = n + 1 ∧
  Forall (λ a, 1 ≤ RiskAssessment.facility_id a ≤ n) (risk_assessments_db st).

(** The duration [create_access_token] applies: the one given, unless it is
    missing or zero. *)
Definition effective_delta (expires_delta : option Z) : Z :=
  if timedelta_truthy expires_delta then default 0 expires_delta
  else timedelta_minutes 15.

(** The token signed under [key] whose claims are the subject [user] and the
    expiry second [exp]. *)
Definition subject_token (key user : string) (exp : Z) : jwt.token :=
  let payload : gmap string pyval :=
    <["exp" := PyInt exp]> {[ "sub" := PyStr user ]} in
  jwt.Jws ALGORITHM payload (jwt.HMAC ALGORITHM key payload).

(** The score lies between 0.1 and 0.9 and the level and recommendations
    are those of its tier. *)
Definition well_scored (a : RiskAssessment.t) : Prop :=
  (0.1 <=? RiskAssessment.risk_score a)%float = true ∧
  (RiskAssessment.risk_score a <=? 0.9)%float = true ∧
  level_of_score (RiskAssessment.risk_score a) (RiskAssessment.risk_level a) ∧
  RiskAssessment.recommendations a =
    recommendations_of_level (RiskAssessment.risk_level a).

(** The bounds of [datetime]: the first microsecond of year 1 and the last
    of year 9999.  [datetime + timedelta] raises [OverflowError] outside
    them; the embedding adds on [Z] and is meant within them. *)
Definition datetime_min : Z := -62135596800 * usec_per_sec.
Definition datetime_max : Z := 253402300799 * usec_per_sec + 999999.

Definition in_datetime_range (t : Z) : Prop :=
  datetime_min ≤ t ≤ datetime_max.

(** A payload [jwt.encode] accepts: JSON values only, and an [iss] that is
    text when present. *)
Definition encodable (data : gmap string pyval) : Prop :=
  json_payload data ∧
  match data !! "iss" with
  | Some iss => jwt.is_str iss = true
  | None => True
  end.




(** A token signed under the default key with a null [nbf]. *)
Definition null_nbf_token : jwt.token :=
  let payload : gmap string pyval :=
    {[ "sub" := PyStr "demo"; "nbf" := PyNone ]} in
  jwt.Jws ALGORITHM payload (jwt.HMAC ALGORITHM DEFAULT_SECRET_KEY payload).

(** Issued half a second after the epoch, the token expires at second 1800. *)
Example login_demo_example :
  login DEFAULT_SECRET_KEY (mkForm "demo" "demo") 500000 =
  Return (mkToken
    (jwt.Jws "HS256" {[ "sub" := PyStr "demo"; "exp" := PyInt 1800 ]}
       (jwt.HMAC "HS256" DEFAULT_SECRET_KEY
          {[ "sub" := PyStr "demo"; "exp" := PyInt 1800 ]}))
    "bearer").
Proof. vm_compute. reflexivity. Qed.

(** The endpoints of [a + (b - a) * random()] for [a = 0.1], [b = 0.9] and
    [random()] at its least and greatest values, [0] and [1 - 2^-53]. *)
Example uniform_endpoints :
  ((0.1 + (0.9 - 0.1) * 0)%float =? 0.1)%float = true ∧
  ((0.1 + (0.9 - 0.1) * 0.99999999999999989)%float <=? 0.9)%float = true.
Proof. vm_compute. split; reflexivity. Qed.

Example int_of_str_examples :
  jwt.int_of_str "1800" = Some 1800 ∧ jwt.int_of_str " -1_000 " = Some (-1000) ∧
  jwt.int_of_str "+012" = Some 12 ∧ jwt.int_of_str "" = None ∧
  jwt.int_of_str "12a" = None ∧ jwt.int_of_str "1__0" = None ∧
  jwt.int_of_str "_1" = None ∧ jwt.int_of_str "1_" = None ∧
  jwt.int_of_str "+ 1" = None ∧ jwt.int_of_str "1.5" = None.
Proof. vm_compute. repeat split. Qed.

(** Two keys that differ in trailing zero bytes give the same tag. *)
Example hmac_key_padding :
  jwt.HMAC "HS256" (String.String Ascii.zero "") ∅ = jwt.HMAC "HS256" "" ∅ ∧
  jwt.HMAC "HS256" "a" ∅ ≠ jwt.HMAC "HS256" "b" ∅.
Proof. split; [reflexivity|]. vm_compute. discriminate. Qed.

(** A null time claim makes [verify_token] raise [TypeError], which its
    [except] clause does not catch; a numeric text counts as its number. *)
Example verify_token_null_nbf :
  verify_token DEFAULT_SECRET_KEY null_nbf_token 0 = Raise TypeError.
Proof. vm_compute. reflexivity. Qed.

Example round2_examples :
  round2 0.1%float = 0.1%float ∧ round2 0.9%float = 0.9%float ∧
  round2 0.2949%float = 0.29%float ∧ round2 0.295%float = 0.29%float ∧
  round2 0.296%float = 0.3%float ∧ round2 0.125%float = 0.12%float ∧
  round2 0.375%float = 0.38%float.
Proof. vm_compute. repeat split. Qed.

(** The walk of the API the specification describes: log in, create a
    facility, read it back, assess it, ask for an unknown facility, and
    call a route with a string that is no token. *)
Example end_to_end :
  let key := DEFAULT_SECRET_KEY in
  let tok := signed_token "demo" in
  let created := Facility.set_id sample_facility 1 in
  verify_token key tok 1000000 = Return (PyStr "demo") ∧
  depends_verify_token key tok 1000000 (create_facility sample_facility)
    initial_state = (Return created, sample_state) ∧
  depends_verify_token key tok 2000000 (get_facility 1) sample_state =
    (Return created, sample_state) ∧
  (depends_verify_token key tok 3000000
     (λ u, perform_risk_assessment 1 u 0.75%float 3000000) sample_state).1 =
    Return (RiskAssessment.mk 1 0.75%float "High" high_recommendations 3000000) ∧
  depends_verify_token key tok 4000000
    (λ u, perform_risk_assessment 999 u 0.75%float 4000000) sample_state =
    (Raise (HTTPExn not_found), sample_state) ∧
  depends_verify_token key (jwt.Unparsable "") 5000000 get_facilities
    sample_state = (Raise (HTTPExn credentials_exception), sample_state).
Proof. vm_compute. repeat split. Qed.

(** * Properties *)

(** ** Token service *)

Section TokenService.

Variable key : string.

Lemma alter_json_payload (m : gmap string pyval) (k : string) :
  json_payload m → alter jwt.to_numeric_date k m = m.
Proof.
  intros Hm. apply map_eq; intros j.
  rewrite lookup_alter. case_decide as Hkj; [subst j|done].
  destruct (m !! k) as [v|] eqn:Hv; [|done].
  apply (map_Forall_lookup_1 _ _ _ _ Hm) in Hv.
  by destruct v.
Qed.

Lemma json_payload_insert (m : gmap string pyval) (k : string) (v : pyval) :
  jwt.json_serializable v = true → json_payload m → json_payload (<[k := v]> m).
Proof. intros Hv Hm. by apply map_Forall_insert_2. Qed.

(** Encoding an encodable payload to which a datetime [exp] was added
    truncates that datetime to whole seconds and signs the result. *)
Lemma encode_with_exp (data : gmap string pyval) (expire : Z) (alg : string) :
  encodable data →
  let payload := <["exp" := PyInt (timegm expire)]> data in
  jwt.encode (<["exp" := PyDatetime expire]> data) key alg =
  Return (jwt.Jws alg payload (jwt.HMAC alg key payload)).
Proof.
  intros [Hdata Hiss] payload. unfold jwt.encode.
  rewrite alter_insert_eq. cbn [jwt.to_numeric_date]. fold payload.
  assert (Hp : json_payload payload) by by apply json_payload_insert.
  rewrite !(alter_json_payload payload) by done.
  assert (Hlook : payload !! "iss" = data !! "iss")
    by by apply lookup_insert_ne.
  rewrite Hlook.
  destruct (data !! "iss") as [iss|]; [rewrite Hiss|]; cbn;
    by rewrite decide_True.
Qed.

Lemma create_access_token_spec (data : gmap string pyval)
    (expires_delta : option Z) (utcnow : Z) :
  encodable data →
  let expire :=
    if timedelta_truthy expires_delta
    then utcnow + default 0 expires_delta
    else utcnow + timedelta_minutes 15 in
  let payload := <["exp" := PyInt (timegm expire)]> data in
  create_access_token key data expires_delta utcnow =
  Return (jwt.Jws ALGORITHM payload (jwt.HMAC ALGORITHM key payload)).
Proof. intros Hdata. by apply encode_with_exp. Qed.

Lemma encodable_subject (user : string) :
  encodable {[ "sub" := PyStr user ]}.
Proof.
  split; [by apply map_Forall_singleton|].
  by rewrite lookup_singleton_ne.
Qed.

(** A token signed under the key and algorithm of the program, whose
    registered claims are an integer [exp] and a text [sub], decodes to its
    claims until it expires. *)
Lemma decode_signed (payload : gmap string pyval) (user : string)
    (exp now : Z) :
  payload !! "iat" = None →
  payload !! "nbf" = None →
  payload !! "exp" = Some (PyInt exp) →
  payload !! "aud" = None →
  payload !! "sub" = Some (PyStr user) →
  payload !! "jti" = None →
  jwt.decode (jwt.Jws ALGORITHM payload (jwt.HMAC ALGORITHM key payload))
    key [ALGORITHM] now =
  if decide (exp * usec_per_sec ≤ now)
  then Raise (JWTExn ExpiredSignatureError)
  else Return payload.
Proof.
  intros Hiat Hnbf Hexp Haud Hsub Hjti. unfold jwt.decode.
  rewrite bool_decide_eq_true_2 by apply list_elem_of_singleton, eq_refl.
  rewrite bool_decide_eq_true_2 by done. cbn [negb].
  unfold jwt.validate_claims, jwt.validate_iat, jwt.validate_nbf,
    jwt.validate_exp, jwt.validate_aud, jwt.validate_sub, jwt.validate_jti.
  rewrite Hiat, Hnbf, Hexp, Haud, Hsub, Hjti. cbn. by case_decide.
Qed.

Lemma timegm_add_minutes (utcnow n : Z) :
  timegm (utcnow + timedelta_minutes n) = timegm utcnow + n * 60.
Proof.
  unfold timegm, timedelta_minutes.
  rewrite Z.div_add by done. reflexivity.
Qed.

Lemma timedelta_minutes_truthy (n : Z) :
  n ≠ 0 → timedelta_truthy (Some (timedelta_minutes n)) = true.
Proof.
  intros Hn. unfold timedelta_truthy, timedelta_minutes, usec_per_sec.
  apply negb_true_iff, Z.eqb_neq. lia.
Qed.

(** The claims of the token [login] issues at [utcnow]. *)
Lemma login_demo_token (utcnow : Z) :
  let payload : gmap string pyval :=
    <["exp" := PyInt (timegm utcnow + 30 * 60)]> {[ "sub" := PyStr "demo" ]} in
  login key demo_form utcnow =
  Return {| access_token :=
              jwt.Jws ALGORITHM payload (jwt.HMAC ALGORITHM key payload);
            token_type := "bearer" |}.
Proof.
  intros payload. unfold login, demo_form. cbn [username password].
  rewrite String.eqb_refl. cbn [andb].
  rewrite create_access_token_spec by apply encodable_subject.
  cbn [mbind result_bind mret result_ret].
  rewrite timedelta_minutes_truthy by done. cbn [default from_option id].
  by rewrite timegm_add_minutes.
Qed.

(** [login] returns only on the demo credentials. *)
Lemma login_Return_inv (form : OAuth2PasswordRequestForm) (utcnow : Z) (t : Token) :
  login key form utcnow = Return t → form = demo_form.
Proof.
  unfold login.
  destruct (String.eqb (username form) "demo" && String.eqb (password form) "demo")
    eqn:Hboth; [intros _|intros [=]].
  apply andb_true_iff in Hboth as [Hu%String.eqb_eq Hp%String.eqb_eq].
  destruct form as [u p]. cbn [username password] in Hu, Hp.
  unfold demo_form. congruence.
Qed.

Lemma verify_signed_subject (payload : gmap string pyval) (user : string)
    (exp now : Z) :
  payload !! "iat" = None →
  payload !! "nbf" = None →
  payload !! "exp" = Some (PyInt exp) →
  payload !! "aud" = None →
  payload !! "sub" = Some (PyStr user) →
  payload !! "jti" = None →
  verify_token key
    (jwt.Jws ALGORITHM payload (jwt.HMAC ALGORITHM key payload)) now =
  if decide (exp * usec_per_sec ≤ now)
  then Raise (HTTPExn credentials_exception)
  else Return (PyStr user).
Proof.
  intros Hiat Hnbf Hexp Haud Hsub Hjti. unfold verify_token.
  rewrite (decode_signed payload user exp now) by done.
  case_decide; [done|]. unfold dict_get. by rewrite Hsub.
Qed.

Lemma verify_demo_token (exp now : Z) :
  let payload : gmap string pyval :=
    <["exp" := PyInt exp]> {[ "sub" := PyStr "demo" ]} in
  verify_token key
    (jwt.Jws ALGORITHM payload (jwt.HMAC ALGORITHM key payload)) now =
  if decide (exp * usec_per_sec ≤ now)
  then Raise (HTTPExn credentials_exception)
  else Return (PyStr "demo").
Proof.
  intros payload. subst payload. apply verify_signed_subject.
  - by rewrite lookup_insert_ne, lookup_singleton_ne.
  - by rewrite lookup_insert_ne, lookup_singleton_ne.
  - by rewrite lookup_insert_eq.
  - by rewrite lookup_insert_ne, lookup_singleton_ne.
  - by rewrite lookup_insert_ne, lookup_singleton_eq.
  - by rewrite lookup_insert_ne, lookup_singleton_ne.
Qed.

End TokenService.

Section Verify.

Variable key : string.

Lemma validate_claims_Return (payload p : gmap string pyval) (now : Z) :
  jwt.validate_claims payload now = Return p →
  p = payload ∧
  (∀ exp, payload !! "exp" = Some (PyInt exp) → now < exp * usec_per_sec) ∧
  (∀ nbf, payload !! "nbf" = Some (PyInt nbf) → nbf * usec_per_sec ≤ now).
Proof.
  unfold jwt.validate_claims.
  destruct (jwt.validate_iat payload now) as [[]|e]; [|done].
  destruct (jwt.validate_nbf payload now) as [[]|e] eqn:Hnbf; [|done].
  destruct (jwt.validate_exp payload now) as [[]|e] eqn:Hexp; [|done].
  destruct (jwt.validate_aud payload) as [[]|e]; [|done].
  destruct (jwt.validate_sub payload) as [[]|e]; [|done].
  destruct (jwt.validate_jti payload) as [[]|e]; [|done].
  cbn. intros [= <-]. split; [done|]. split.
  - intros exp Hl. unfold jwt.validate_exp in Hexp. rewrite Hl in Hexp.
    cbn in Hexp. case_decide; [done|lia].
  - intros nbf Hl. unfold jwt.validate_nbf in Hnbf. rewrite Hl in Hnbf.
    cbn in Hnbf. case_decide; [done|lia].
Qed.

Lemma validate_claims_Raise (payload : gmap string pyval) (now : Z) (e : exn) :
  jwt.validate_claims payload now = Raise e →
  (∃ j, e = JWTExn j) ∨ e = TypeError.
Proof.
  unfold jwt.validate_claims, jwt.validate_iat, jwt.validate_nbf,
    jwt.validate_exp, jwt.validate_aud, jwt.validate_sub, jwt.validate_jti.
  intros H. repeat case_match; simplify_eq/=; eauto.
Qed.

(** What a successful decode establishes about the token. *)
Lemma decode_Return (tok : jwt.token) (now : Z) (p : gmap string pyval) :
  jwt.decode tok key [ALGORITHM] now = Return p →
  p = token_claims tok ∧ signature_valid key tok ∧ ¬ expired tok now.
Proof.
  destruct tok as [raw|alg payload sg]; cbn; [done|].
  destruct (bool_decide (alg ∈ [ALGORITHM])) eqn:Halg; cbn; [|done].
  destruct (bool_decide (sg = jwt.HMAC alg key payload)) eqn:Hsg; cbn; [|done].
  apply bool_decide_eq_true_1 in Halg, Hsg.
  apply list_elem_of_singleton in Halg.
  intros (-> & Hexp & _)%validate_claims_Return. repeat split; try done.
  intros (exp & Hc & Hle). unfold exp_claim in Hc. cbn in Hc.
  destruct (payload !! "exp") as [[]|] eqn:Hl; simplify_eq.
  specialize (Hexp _ eq_refl). lia.
Qed.

(** [jwt.decode] raises PyJWT's own exceptions, or the [TypeError] of
    [int(None)]. *)
Lemma decode_Raise (tok : jwt.token) (now : Z) (e : exn) :
  jwt.decode tok key [ALGORITHM] now = Raise e →
  (∃ j, e = JWTExn j) ∨ e = TypeError.
Proof.
  destruct tok as [raw|alg payload sg]; cbn.
  - intros; simplify_eq; eauto.
  - destruct (bool_decide (alg ∈ [ALGORITHM])); cbn;
      [|intros; simplify_eq; eauto].
    destruct (bool_decide (sg = jwt.HMAC alg key payload)); cbn;
      [|intros; simplify_eq; eauto].
    apply validate_claims_Raise.
Qed.

Lemma verify_token_cases (tok : jwt.token) (now : Z) :
  match jwt.decode tok key [ALGORITHM] now with
  | Return payload =>
      verify_token key tok now =
      if is_none (dict_get payload "sub")
      then Raise (HTTPExn credentials_exception)
      else Return (dict_get payload "sub")
  | Raise (JWTExn _) =>
      verify_token key tok now = Raise (HTTPExn credentials_exception)
  | Raise e => verify_token key tok now = Raise e
  end.
Proof.
  unfold verify_token.
  destruct (jwt.decode tok key [ALGORITHM] now) as [p|[]]; done.
Qed.

(** [verify_token] returns only what a successful decode gave it. *)
Lemma verify_token_Return_decode (tok : jwt.token) (now : Z) (user : pyval) :
  verify_token key tok now = Return user →
  jwt.decode tok key [ALGORITHM] now = Return (token_claims tok) ∧
  user = dict_get (token_claims tok) "sub" ∧
  user ≠ PyNone.
Proof.
  intros Hreturn. pose proof (verify_token_cases tok now) as Hv.
  destruct (jwt.decode tok key [ALGORITHM] now) as [p|e] eqn:Hd.
  - pose proof (decode_Return _ _ _ Hd) as (-> & _ & _).
    rewrite Hreturn in Hv.
    destruct (is_none (dict_get (token_claims tok) "sub")) eqn:Hnone;
      [discriminate|].
    injection Hv as ->. repeat split.
    intros Heq. rewrite Heq in Hnone. discriminate.
  - destruct e; congruence.
Qed.

Lemma is_none_true (v : pyval) : is_none v = true ↔ v = PyNone.
Proof. by destruct v. Qed.

End Verify.

(** C1: with username and password both "demo", [login] returns a bearer
    token on which [verify_token] succeeds with the user name "demo", at the
    instant of issuance and at every instant before the expiry the token
    carries; with any other pair [login] raises an Unauthorized error that
    carries a [WWW-Authenticate] challenge. *)
Theorem login_issues_verifiable_token (key : string) :
  (∀ form utcnow, username form = "demo" → password form = "demo" →
     ∃ tok exp,
       login key form utcnow =
         Return {| access_token := tok; token_type := "bearer" |} ∧
       exp_claim tok = Some exp ∧
       verify_token key tok utcnow = Return (PyStr "demo") ∧
       ∀ now, now < exp * usec_per_sec →
         verify_token key tok now = Return (PyStr "demo")) ∧
  (∀ form utcnow, ¬ (username form = "demo" ∧ password form = "demo") →
     ∃ e, login key form utcnow = Raise e ∧ unauthorized_with_challenge e).
Proof.
  split.
  - intros [u p] utcnow Hu Hp. cbn in Hu, Hp. subst u p.
    fold demo_form. rewrite login_demo_token.
    eexists _, (timegm utcnow + 30 * 60). split; [reflexivity|].
    split; [reflexivity|].
    assert (Hnow : ∀ now, now < (timegm utcnow + 30 * 60) * usec_per_sec →
      verify_token key
        (jwt.Jws ALGORITHM
           (<["exp" := PyInt (timegm utcnow + 30 * 60)]> {[ "sub" := PyStr "demo" ]})
           (jwt.HMAC ALGORITHM key
              (<["exp" := PyInt (timegm utcnow + 30 * 60)]> {[ "sub" := PyStr "demo" ]})))
        now = Return (PyStr "demo")).
    { intros now Hlt. rewrite verify_demo_token. by rewrite decide_False by lia. }
    split; [|exact Hnow].
    apply Hnow. unfold timegm, usec_per_sec.
    pose proof (Z.mod_pos_bound utcnow 1000000 eq_refl).
    pose proof (Z.div_mod utcnow 1000000). lia.
  - intros form utcnow Hne. unfold login.
    destruct (String.eqb (username form) "demo") eqn:Hu;
      destruct (String.eqb (password form) "demo") eqn:Hp; cbn [andb].
    + apply String.eqb_eq in Hu, Hp. tauto.
    + eexists; split; [reflexivity|]. by eexists _, "Bearer", _.
    + eexists; split; [reflexivity|]. by eexists _, "Bearer", _.
    + eexists; split; [reflexivity|]. by eexists _, "Bearer", _.
Qed.

Lemma login_issues_verifiable_token_witness :
  (∃ tok exp,
     login DEFAULT_SECRET_KEY demo_form 500000 =
       Return {| access_token := tok; token_type := "bearer" |} ∧
     exp_claim tok = Some exp ∧
     verify_token DEFAULT_SECRET_KEY tok 500000 = Return (PyStr "demo") ∧
     ∀ now, now < exp * usec_per_sec →
       verify_token DEFAULT_SECRET_KEY tok now = Return (PyStr "demo")) ∧
  (∃ e, login DEFAULT_SECRET_KEY {| username := "demo"; password := "Demo" |} 500000
          = Raise e ∧ unauthorized_with_challenge e).
Proof.
  destruct (login_issues_verifiable_token DEFAULT_SECRET_KEY) as [Hok Hbad].
  split.
  - apply (Hok demo_form 500000); reflexivity.
  - apply (Hbad {| username := "demo"; password := "Demo" |} 500000).
    cbn. intros [_ H]. discriminate H.
Defined.

Section EncodedExpiry.

Variable key : string.



End EncodedExpiry.




(** C7: a token [login] has issued carries an expiry instant, 30 minutes
    after the second of its issuance; [verify_token] rejects it at every
    instant strictly after that instant and accepts it, returning the user
    name, at every instant strictly before. *)
Theorem issued_token_validity_window (key : string)
    (form : OAuth2PasswordRequestForm) (utcnow : Z) (t : Token) :
  login key form utcnow = Return t →
  ∃ exp,
    exp_claim (access_token t) = Some exp ∧
    exp = timegm utcnow + 30 * 60 ∧
    (∀ now, exp * usec_per_sec < now →
       verify_token key (access_token t) now =
       Raise (HTTPExn credentials_exception)) ∧
    (∀ now, now < exp * usec_per_sec →
       verify_token key (access_token t) now = Return (PyStr (username form))).
Proof.
  intros Hlogin.
  pose proof (login_Return_inv _ _ _ _ Hlogin) as ->.
  rewrite login_demo_token in Hlogin. injection Hlogin as <-.
  cbn [access_token username demo_form].
  exists (timegm utcnow + 30 * 60). split; [|split; [reflexivity|split]].
  - unfold exp_claim. cbn [token_claims]. by rewrite lookup_insert_eq.
  - intros now Hlt. rewrite verify_demo_token. by rewrite decide_True by lia.
  - intros now Hlt. rewrite verify_demo_token. by rewrite decide_False by lia.
Qed.

Lemma issued_token_validity_window_witness :
  ∃ t exp,
    login DEFAULT_SECRET_KEY demo_form 1500000 = Return t ∧
    exp_claim (access_token t) = Some exp ∧
    exp = 1801 ∧
    (∀ now, exp * usec_per_sec < now →
       verify_token DEFAULT_SECRET_KEY (access_token t) now =
       Raise (HTTPExn credentials_exception)) ∧
    (∀ now, now < exp * usec_per_sec →
       verify_token DEFAULT_SECRET_KEY (access_token t) now =
       Return (PyStr "demo")).
Proof.
  pose proof (login_demo_token DEFAULT_SECRET_KEY 1500000) as Htok.
  cbn zeta in Htok. eexists.
  destruct (issued_token_validity_window _ _ _ _ Htok)
    as (exp & Hexp & Heq & Hafter & Hbefore).
  exists exp. split; [exact Htok|]. split; [exact Hexp|].
  split; [exact Heq|]. split; [exact Hafter|exact Hbefore].
Defined.




(** ** Facility store *)

Section FacilityStore.

Implicit Types (st : state) (db : list Facility.t) (current_user : pyval).

Lemma find_facility_None db (facility_id : Z) :
  find_facility db facility_id = None ↔ id_absent db facility_id.
Proof.
  unfold find_facility, id_absent. induction db as [|f db IH]; cbn.
  - split; [|done]. intros _ f Hf. by apply elem_of_nil in Hf.
  - case_bool_decide as Hid.
    + split; [done|]. intros Habs. destruct (Habs f); [left|done].
    + rewrite IH. split.
      * intros Habs g [->|Hg]%elem_of_cons; auto.
      * intros Habs g Hg. apply Habs. by right.
Qed.

Lemma find_facility_Some db (facility_id : Z) (f : Facility.t) :
  find_facility db facility_id = Some f →
  f ∈ db ∧ Facility.id f = Some facility_id.
Proof.
  unfold find_facility. intros [Hin Hid]%List.find_some.
  apply list_elem_of_In in Hin. by apply bool_decide_eq_true_1 in Hid.
Qed.

Lemma find_facility_present db (facility_id : Z) :
  ¬ id_absent db facility_id → ∃ f, find_facility db facility_id = Some f.
Proof.
  intros Hpresent. destruct (find_facility db facility_id) as [f|] eqn:Hfind.
  - by exists f.
  - by apply find_facility_None in Hfind.
Qed.

(** A run of creations assigns the counter values in order and appends
    the records it returns. *)
Lemma create_all_from (requests : list (Facility.t * pyval)) st :
  let created :=
    zip_with Facility.set_id (requests.*1)
      (seqZ (facility_counter st) (Z.of_nat (length requests))) in
  create_all requests st =
  (Return <$> created,
   {| facilities_db := facilities_db st ++ created;
      risk_assessments_db := risk_assessments_db st;
      facility_counter := facility_counter st + Z.of_nat (length requests) |}).
Proof.
  revert st. induction requests as [|[f u] requests IH]; intros st.
  - cbn. rewrite app_nil_r, Z.add_0_r. by destruct st.
  - cbn [create_all create_facility length]. rewrite IH. cbn zeta.
    cbn [facility_counter facilities_db risk_assessments_db].
    rewrite (seqZ_cons (facility_counter st) (Z.of_nat (S (length requests)))) by lia.
    replace (Z.pred (Z.of_nat (S (length requests))))
      with (Z.of_nat (length requests)) by lia.
    replace (Z.succ (facility_counter st)) with (facility_counter st + 1) by lia.
    cbn [fmap list_fmap zip_with fst].
    rewrite <- app_assoc. cbn [app]. f_equal. f_equal. lia.
Qed.

Lemma id_zip_set_id (fs : list Facility.t) (ids : list Z) :
  length fs = length ids →
  Facility.id <$> zip_with Facility.set_id fs ids = Some <$> ids.
Proof.
  revert ids. induction fs as [|f fs IH]; intros [|i ids] Hlen; try done.
  cbn. f_equal. apply IH. by injection Hlen.
Qed.

End FacilityStore.

(** C3: [N] creations from the initial store are assigned the identifiers
    [1, ..., N] in creation order, which are distinct and strictly
    increasing; each returned record is the request with that identifier,
    and listing afterwards returns the [N] records in creation order. *)
Theorem creations_assign_sequential_ids (requests : list (Facility.t * pyval))
    (current_user : pyval) :
  let n := Z.of_nat (length requests) in
  let run := create_all requests initial_state in
  ∃ created ids,
    run.1 = Return <$> created ∧
    created = zip_with Facility.set_id (requests.*1) ids ∧
    Facility.id <$> created = Some <$> ids ∧
    ids = seqZ 1 n ∧
    length created = length requests ∧
    NoDup ids ∧
    (∀ i j x y, ids !! i = Some x → ids !! j = Some y → (i < j)%nat → x < y) ∧
    get_facilities current_user run.2 = (Return created, run.2) ∧
    facility_counter run.2 = n + 1.
Proof.
  intros n run. subst run. rewrite create_all_from.
  cbn [initial_state facility_counter facilities_db fst snd app].
  fold n. eexists _, (seqZ 1 n).
  assert (Hlen : length (requests.*1) = length (seqZ 1 n)).
  { rewrite length_fmap, length_seqZ. subst n. lia. }
  repeat split.
  - by apply id_zip_set_id.
  - rewrite length_zip_with, <- Hlen, length_fmap. lia.
  - apply NoDup_seqZ.
  - intros i j x y [-> _]%lookup_seqZ [-> _]%lookup_seqZ Hij. lia.
  - lia.
Qed.

(** C4: for an identifier that no stored facility has, [get_facility] and
    [perform_risk_assessment] both raise the 404 error and leave the store
    as it was; for an identifier that a stored facility has, both return. *)
Theorem not_found_iff_absent (facility_id : Z) (current_user : pyval)
    (uniform : float) (utcnow : Z) (st : state) :
  status_code not_found = 404 ∧
  (id_absent (facilities_db st) facility_id →
     get_facility facility_id current_user st = (Raise (HTTPExn not_found), st) ∧
     perform_risk_assessment facility_id current_user uniform utcnow st =
       (Raise (HTTPExn not_found), st)) ∧
  (¬ id_absent (facilities_db st) facility_id →
     (∃ f, get_facility facility_id current_user st = (Return f, st) ∧
           f ∈ facilities_db st ∧ Facility.id f = Some facility_id) ∧
     (∃ a st', perform_risk_assessment facility_id current_user uniform utcnow st =
                 (Return a, st'))).
Proof.
  split; [reflexivity|]. split.
  - intros Habs%find_facility_None.
    unfold get_facility, perform_risk_assessment. by rewrite Habs.
  - intros [f Hfind]%find_facility_present.
    unfold get_facility, perform_risk_assessment. rewrite Hfind. split.
    + exists f. split; [done|]. by apply find_facility_Some in Hfind.
    + repeat case_match; eauto.
Qed.

Lemma not_found_iff_absent_witness :
  (get_facility 999 (PyStr "demo") sample_state =
     (Raise (HTTPExn not_found), sample_state) ∧
   perform_risk_assessment 999 (PyStr "demo") 0.5%float 0 sample_state =
     (Raise (HTTPExn not_found), sample_state)) ∧
  ((∃ f, get_facility 1 (PyStr "demo") sample_state = (Return f, sample_state) ∧
         f ∈ facilities_db sample_state ∧ Facility.id f = Some 1) ∧
   (∃ a st', perform_risk_assessment 1 (PyStr "demo") 0.5%float 0 sample_state =
               (Return a, st'))).
Proof.
  split.
  - apply (not_found_iff_absent 999 (PyStr "demo") 0.5%float 0 sample_state).
    intros f [->|Hf]%elem_of_cons; [discriminate|].
    by apply elem_of_nil in Hf.
  - apply (not_found_iff_absent 1 (PyStr "demo") 0.5%float 0 sample_state).
    intros Habs. apply (Habs (Facility.set_id sample_facility 1)); [left|reflexivity].
Defined.

(** C9: whatever [id] the request body supplies, the record [create_facility]
    stores and returns has the current value of [facility_counter] as its
    identifier, and the outcome does not depend on the supplied [id]. *)
Theorem create_facility_ignores_client_id (facility : Facility.t)
    (current_user : pyval) (st : state) :
  ∃ stored st',
    create_facility facility current_user st = (Return stored, st') ∧
    Facility.id stored = Some (facility_counter st) ∧
    stored = Facility.set_id facility (facility_counter st) ∧
    facilities_db st' = facilities_db st ++ [stored] ∧
    facility_counter st' = facility_counter st + 1 ∧
    ∀ client_id,
      create_facility (with_client_id facility client_id) current_user st =
      (Return stored, st').
Proof. eexists _, _. repeat split. Qed.

(** ** Risk assessment *)

(** What a returning assessment looks like. *)
Lemma perform_risk_assessment_Return (facility_id : Z) (current_user : pyval)
    (uniform : float) (utcnow : Z) (st st' : state) (a : RiskAssessment.t) :
  perform_risk_assessment facility_id current_user uniform utcnow st =
    (Return a, st') →
  RiskAssessment.facility_id a = facility_id ∧
  RiskAssessment.risk_score a = round2 uniform ∧
  RiskAssessment.timestamp a = utcnow ∧
  (RiskAssessment.risk_level a, RiskAssessment.recommendations a) =
    (if (round2 uniform <? 0.3)%float then ("Low", low_recommendations)
     else if (round2 uniform <? 0.7)%float then ("Medium", medium_recommendations)
     else ("High", high_recommendations)) ∧
  st' = {| facilities_db := facilities_db st;
           risk_assessments_db := risk_assessments_db st ++ [a];
           facility_counter := facility_counter st |}.
Proof.
  unfold perform_risk_assessment.
  destruct (find_facility (facilities_db st) facility_id) as [f|]; [|intros [=]].
  destruct (round2 uniform <? 0.3)%float;
    [|destruct (round2 uniform <? 0.7)%float];
    intros [= <- <-]; repeat split.
Qed.

(** C8: a returning call of [perform_risk_assessment] appends exactly the
    returned record, stamped with the clock reading and carrying the
    requested identifier, to the end of [risk_assessments_db]; the records
    logged before, [facilities_db] and [facility_counter] are unchanged. *)
Theorem assessment_is_appended (facility_id : Z) (current_user : pyval)
    (uniform : float) (utcnow : Z) (st st' : state) (a : RiskAssessment.t) :
  perform_risk_assessment facility_id current_user uniform utcnow st =
    (Return a, st') →
  risk_assessments_db st' = risk_assessments_db st ++ [a] ∧
  length (risk_assessments_db st') = S (length (risk_assessments_db st)) ∧
  RiskAssessment.timestamp a = utcnow ∧
  RiskAssessment.facility_id a = facility_id ∧
  facilities_db st' = facilities_db st ∧
  facility_counter st' = facility_counter st.
Proof.
  intros (Hid & _ & Hts & _ & ->)%perform_risk_assessment_Return.
  cbn [risk_assessments_db facilities_db facility_counter].
  rewrite length_app. cbn [length]. repeat split; try done. lia.
Qed.

Lemma assessment_is_appended_witness :
  ∃ a st',
    perform_risk_assessment 1 (PyStr "demo") 0.5%float 1500000 sample_state =
      (Return a, st') ∧
    risk_assessments_db st' = risk_assessments_db sample_state ++ [a] ∧
    length (risk_assessments_db st') = S (length (risk_assessments_db sample_state)) ∧
    RiskAssessment.timestamp a = 1500000 ∧
    RiskAssessment.facility_id a = 1 ∧
    facilities_db st' = facilities_db sample_state ∧
    facility_counter st' = facility_counter sample_state.
Proof.
  eexists _, _. split; [vm_compute; reflexivity|].
  apply (assessment_is_appended 1 (PyStr "demo") 0.5%float 1500000 sample_state).
  vm_compute. reflexivity.
Defined.

(** ** The authenticated user *)

(** No route reads [current_user]. *)
Lemma routes_ignore_current_user (u1 u2 : pyval) :
  get_facilities u1 = get_facilities u2 ∧
  (∀ facility, create_facility facility u1 = create_facility facility u2) ∧
  (∀ facility_id, get_facility facility_id u1 = get_facility facility_id u2) ∧
  (∀ facility_id uniform utcnow,
     perform_risk_assessment facility_id u1 uniform utcnow =
     perform_risk_assessment facility_id u2 uniform utcnow).
Proof. repeat split. Qed.

(** C10: two requests to the same facility route, on the same store and with
    the same parameters, whose bearer tokens [verify_token] accepts for any
    two user names, have the same response and leave the same store. *)
Theorem routes_independent_of_user (key : string) (tok1 tok2 : jwt.token)
    (now1 now2 : Z) (u1 u2 : pyval) (st : state) :
  verify_token key tok1 now1 = Return u1 →
  verify_token key tok2 now2 = Return u2 →
  depends_verify_token key tok1 now1 get_facilities st =
    depends_verify_token key tok2 now2 get_facilities st ∧
  (∀ facility,
     depends_verify_token key tok1 now1 (create_facility facility) st =
     depends_verify_token key tok2 now2 (create_facility facility) st) ∧
  (∀ facility_id,
     depends_verify_token key tok1 now1 (get_facility facility_id) st =
     depends_verify_token key tok2 now2 (get_facility facility_id) st) ∧
  (∀ facility_id uniform utcnow,
     depends_verify_token key tok1 now1
       (λ u, perform_risk_assessment facility_id u uniform utcnow) st =
     depends_verify_token key tok2 now2
       (λ u, perform_risk_assessment facility_id u uniform utcnow) st).
Proof.
  intros H1 H2. unfold depends_verify_token. rewrite H1, H2.
  destruct (routes_ignore_current_user u1 u2) as (Hlist & Hcreate & Hget & Hassess).
  split; [by rewrite Hlist|]. split; [|split].
  - intros facility. by rewrite Hcreate.
  - intros facility_id. by rewrite Hget.
  - intros facility_id uniform utcnow. by rewrite Hassess.
Qed.

Lemma routes_independent_of_user_witness :
  depends_verify_token DEFAULT_SECRET_KEY (signed_token "demo") 0
    get_facilities sample_state =
  depends_verify_token DEFAULT_SECRET_KEY (signed_token "alice") 1000000
    get_facilities sample_state ∧
  (∀ facility,
     depends_verify_token DEFAULT_SECRET_KEY (signed_token "demo") 0
       (create_facility facility) sample_state =
     depends_verify_token DEFAULT_SECRET_KEY (signed_token "alice") 1000000
       (create_facility facility) sample_state) ∧
  (∀ facility_id,
     depends_verify_token DEFAULT_SECRET_KEY (signed_token "demo") 0
       (get_facility facility_id) sample_state =
     depends_verify_token DEFAULT_SECRET_KEY (signed_token "alice") 1000000
       (get_facility facility_id) sample_state) ∧
  (∀ facility_id uniform utcnow,
     depends_verify_token DEFAULT_SECRET_KEY (signed_token "demo") 0
       (λ u, perform_risk_assessment facility_id u uniform utcnow) sample_state =
     depends_verify_token DEFAULT_SECRET_KEY (signed_token "alice") 1000000
       (λ u, perform_risk_assessment facility_id u uniform utcnow) sample_state).
Proof.
  apply (routes_independent_of_user DEFAULT_SECRET_KEY
           (signed_token "demo") (signed_token "alice") 0 1000000
           (PyStr "demo") (PyStr "alice") sample_state).
  - vm_compute. reflexivity.
  - vm_compute. reflexivity.
Defined.

(** ** Risk score *)

Section RiskScore.

(** Rounding to the nearest integer lands between [lo] and [hi] when the
    quotient lies strictly between [lo - 1/2] and [hi + 1/2]. *)
Lemma half_even_bounds (n d lo hi : Z) :
  0 < d → (2 * lo - 1) * d < 2 * n → 2 * n < (2 * hi + 1) * d →
  lo ≤ half_even n d ≤ hi.
Proof.
  intros Hd Hlo Hhi. unfold half_even.
  pose proof (Z.div_mod n d ltac:(lia)) as Hn.
  pose proof (Z.mod_pos_bound n d Hd) as Hr.
  set (q := n / d) in *. set (r := n mod d) in *.
  assert (Hq1 : lo - 1 ≤ q) by nia.
  assert (Hq2 : q ≤ hi) by nia.
  destruct (Z.ltb_spec (2 * r) d) as [Hlt|Hge].
  - split; [nia|lia].
  - assert (Hq3 : q + 1 ≤ hi) by nia.
    destruct (Z.ltb_spec d (2 * r)); [lia|].
    assert (Hq4 : lo ≤ q) by nia.
    destruct (Z.even q); lia.
Qed.

Lemma pow2_to_pos (e : Z) : e < 0 → Z.pos (2 ^ Z.to_pos (- e)) = 2 ^ (- e).
Proof.
  intros He. rewrite Pos2Z.inj_pow. f_equal. apply Z2Pos.id. lia.
Qed.

(** A draw between the doubles 0.1 and 0.9 rounds to the double nearest
    [k/100] for some [k] from 10 to 90. *)
Lemma round2_between (u : float) :
  between 0.1 0.9 u → ∃ k, 10 ≤ k ≤ 90 ∧ round2 u = of_hundredths k.
Proof.
  intros (qa & qb & qu & Ha & Hb & Hu & Hlo & Hhi).
  vm_compute in Ha, Hb. injection Ha as <-. injection Hb as <-.
  unfold exact_value in Hu. unfold round2.
  destruct (Prim2SF u) as [sg| | |sg m e]; try discriminate.
  - injection Hu as <-. exfalso. revert Hlo. unfold Qle. cbn. lia.
  - injection Hu as <-. destruct (Z.leb_spec 0 e) as [He|He].
    + exfalso. unfold Qle in Hlo, Hhi. cbn [Qnum Qden inject_Z] in Hlo, Hhi.
      pose proof (Z.pow_pos_nonneg 2 e ltac:(lia) He).
      destruct sg; nia.
    + unfold Qle in Hlo, Hhi. cbn [Qnum Qden] in Hlo, Hhi.
      rewrite pow2_to_pos in Hlo, Hhi by done.
      pose proof (Z.pow_pos_nonneg 2 (- e) ltac:(lia) ltac:(lia)) as Hd.
      set (d := 2 ^ (- e)) in *.
      destruct sg; [exfalso; lia|].
      eexists. split; [|reflexivity].
      apply half_even_bounds; lia.
Qed.

Lemma hundredths_table (k : Z) : 10 ≤ k ≤ 90 → hundredths_agree k = true.
Proof.
  intros Hk.
  assert (Hall : forallb hundredths_agree (seqZ 10 81) = true)
    by (vm_compute; reflexivity).
  rewrite forallb_forall in Hall. apply Hall.
  apply list_elem_of_In, elem_of_seqZ. lia.
Qed.

Lemma hundredths_compare (k : Z) :
  10 ≤ k ≤ 90 →
  let score := of_hundredths k in
  (0.1 <=? score)%float = true ∧ (score <=? 0.9)%float = true ∧
  ((score <? 0.3)%float = true ↔ k < 30) ∧
  ((0.3 <=? score)%float = true ↔ 30 ≤ k) ∧
  ((score <? 0.7)%float = true ↔ k < 70) ∧
  ((0.7 <=? score)%float = true ↔ 70 ≤ k).
Proof.
  intros Ht%hundredths_table. unfold hundredths_agree in Ht. cbn zeta in *.
  repeat (apply andb_true_iff in Ht as [Ht ?]).
  repeat match goal with
         | H : Bool.eqb _ _ = true |- _ => apply Bool.eqb_prop in H; rewrite H
         end.
  rewrite Z.ltb_lt, Z.leb_le, Z.ltb_lt, Z.leb_le. done.
Qed.

End RiskScore.

(** C2: when the draw lies between 0.1 and 0.9, as [random.uniform]
    guarantees, the record [perform_risk_assessment] produces has a score
    between 0.1 and 0.9 (a whole number of hundredths from 10 to 90); its
    level is the one the thresholds give that score, and no other level
    fits; its recommendations are the list fixed for that level. *)
Theorem risk_score_in_range_and_level_by_threshold (facility_id : Z)
    (current_user : pyval) (uniform : float) (utcnow : Z) (st st' : state)
    (a : RiskAssessment.t) :
  between 0.1 0.9 uniform →
  perform_risk_assessment facility_id current_user uniform utcnow st =
    (Return a, st') →
  let score := RiskAssessment.risk_score a in
  let level := RiskAssessment.risk_level a in
  (0.1 <=? score)%float = true ∧ (score <=? 0.9)%float = true ∧
  (∃ k, 10 ≤ k ≤ 90 ∧ score = of_hundredths k) ∧
  level_of_score score level ∧
  (∀ level', level_of_score score level' → level' = level) ∧
  RiskAssessment.recommendations a = recommendations_of_level level.
Proof.
  intros [k [Hk Hround]]%round2_between
    (_ & Hscore & _ & Hlevel & _)%perform_risk_assessment_Return.
  cbn zeta. rewrite Hscore, Hround in *. clear Hscore Hround.
  destruct (hundredths_compare k Hk) as (Hlo & Hhi & H03 & H30 & H07 & H70).
  split; [done|]. split; [done|]. split; [by exists k|].
  unfold level_of_score.
  destruct (of_hundredths k <? 0.3)%float eqn:Hlt3;
    [|destruct (of_hundredths k <? 0.7)%float eqn:Hlt7];
    injection Hlevel as -> ->.
  - assert (k < 30) by by apply H03.
    split; [by left|]. split; [|reflexivity].
    intros level' [[_ ->]|[(Hc%H30 & _)|(Hc%H70 & _)]]; [done|lia..].
  - assert (¬ k < 30) by (intros Hc%H03; discriminate).
    assert (k < 70) by by apply H07.
    split; [right; left; repeat split; apply H30; lia|].
    split; [|reflexivity].
    intros level' [[Hc _]|[(_ & _ & ->)|(Hc%H70 & _)]]; [done|done|lia].
  - assert (¬ k < 70) by (intros Hc%H07; discriminate).
    split; [right; right; split; [apply H70; lia|done]|].
    split; [|reflexivity].
    intros level' [[Hc _]|[(_ & Hc & _)|(_ & ->)]]; done.
Qed.

Lemma risk_score_in_range_and_level_by_threshold_witness :
  ∃ a st',
    perform_risk_assessment 1 (PyStr "demo") 0.2949%float 1500000 sample_state =
      (Return a, st') ∧
    RiskAssessment.risk_score a = 0.29%float ∧
    (0.1 <=? RiskAssessment.risk_score a)%float = true ∧
    (RiskAssessment.risk_score a <=? 0.9)%float = true ∧
    level_of_score (RiskAssessment.risk_score a) (RiskAssessment.risk_level a) ∧
    RiskAssessment.recommendations a =
      recommendations_of_level (RiskAssessment.risk_level a).
Proof.
  eexists _, _. split; [vm_compute; reflexivity|].
  split; [vm_compute; reflexivity|].
  assert (Hbetween : between 0.1 0.9 0.2949).
  { eexists _, _, _. split; [vm_compute; reflexivity|].
    split; [vm_compute; reflexivity|]. split; [vm_compute; reflexivity|].
    split; vm_compute; discriminate. }
  destruct (risk_score_in_range_and_level_by_threshold
              1 (PyStr "demo") 0.2949%float 1500000 sample_state _ _
              Hbetween eq_refl)
    as (Hlo & Hhi & _ & Hlevel & _ & Hrecs).
  split; [exact Hlo|]. split; [exact Hhi|]. split; [exact Hlevel|exact Hrecs].
Defined.

(** * Further properties *)

(** ** Tokens: issue and verify *)

Section TokenRoundTrip.

Variable key : string.

Lemma effective_delta_spec (data : gmap string pyval) (expires_delta : option Z)
    (utcnow : Z) :
  encodable data →
  let payload : gmap string pyval :=
    <["exp" := PyInt (timegm (utcnow + effective_delta expires_delta))]> data in
  create_access_token key data expires_delta utcnow =
  Return (jwt.Jws ALGORITHM payload (jwt.HMAC ALGORITHM key payload)).
Proof.
  intros Hdata. rewrite create_access_token_spec by done. cbn zeta.
  unfold effective_delta. by destruct (timedelta_truthy expires_delta).
Qed.

Lemma create_subject_token (user : string) (expires_delta : option Z)
    (utcnow : Z) :
  create_access_token key {[ "sub" := PyStr user ]} expires_delta utcnow =
  Return (subject_token key user (timegm (utcnow + effective_delta expires_delta))).
Proof. apply effective_delta_spec, encodable_subject. Qed.

Lemma verify_subject_token (user : string) (exp now : Z) :
  verify_token key (subject_token key user exp) now =
  if decide (exp * usec_per_sec ≤ now)
  then Raise (HTTPExn credentials_exception)
  else Return (PyStr user).
Proof.
  unfold subject_token. apply verify_signed_subject.
  - by rewrite lookup_insert_ne, lookup_singleton_ne.
  - by rewrite lookup_insert_ne, lookup_singleton_ne.
  - by rewrite lookup_insert_eq.
  - by rewrite lookup_insert_ne, lookup_singleton_ne.
  - by rewrite lookup_insert_ne, lookup_singleton_eq.
  - by rewrite lookup_insert_ne, lookup_singleton_ne.
Qed.


Lemma verify_signed_subject_without_exp (payload : gmap string pyval)
    (user : string) (now : Z) :
  payload !! "iat" = None →
  payload !! "nbf" = None →
  payload !! "exp" = None →
  payload !! "aud" = None →
  payload !! "sub" = Some (PyStr user) →
  payload !! "jti" = None →
  verify_token key
    (jwt.Jws ALGORITHM payload (jwt.HMAC ALGORITHM key payload)) now =
  Return (PyStr user).
Proof.
  intros Hiat Hnbf Hexp Haud Hsub Hjti. unfold verify_token, jwt.decode.
  rewrite bool_decide_eq_true_2 by apply list_elem_of_singleton, eq_refl.
  rewrite bool_decide_eq_true_2 by done. cbn [negb].
  unfold jwt.validate_claims, jwt.validate_iat, jwt.validate_nbf,
    jwt.validate_exp, jwt.validate_aud, jwt.validate_sub, jwt.validate_jti.
  rewrite Hiat, Hnbf, Hexp, Haud, Hsub, Hjti. cbn.
  unfold dict_get. by rewrite Hsub.
Qed.


End TokenRoundTrip.

(** X1: for every user name, duration and issuance instant within the
    range of [datetime], [create_access_token] on the payload with that
    subject returns a token whose expiry is the issuance instant plus the
    effective duration, in whole seconds; [verify_token] returns the user
    name at every instant before that expiry and raises Unauthorized from
    that expiry on. *)
Theorem create_access_token_verify_round_trip (key user : string)
    (expires_delta : option Z) (utcnow : Z) :
  in_datetime_range utcnow →
  in_datetime_range (utcnow + effective_delta expires_delta) →
  ∃ tok,
    create_access_token key {[ "sub" := PyStr user ]} expires_delta utcnow =
      Return tok ∧
    let exp := timegm (utcnow + effective_delta expires_delta) in
    exp_claim tok = Some exp ∧
    (∀ now, now < exp * usec_per_sec →
       verify_token key tok now = Return (PyStr user)) ∧
    (∀ now, exp * usec_per_sec ≤ now →
       verify_token key tok now = Raise (HTTPExn credentials_exception)).
Proof.
  intros _ _.
  exists (subject_token key user (timegm (utcnow + effective_delta expires_delta))).
  split; [apply create_subject_token|]. cbn zeta. split; [|split].
  - unfold exp_claim, subject_token. cbn [token_claims].
    by rewrite lookup_insert_eq.
  - intros now Hnow. rewrite verify_subject_token. by rewrite decide_False by lia.
  - intros now Hnow. rewrite verify_subject_token. by rewrite decide_True by lia.
Qed.

Lemma create_access_token_verify_round_trip_witness :
  ∃ tok,
    create_access_token DEFAULT_SECRET_KEY {[ "sub" := PyStr "alice" ]}
      (Some (timedelta_minutes 5)) 1500000 = Return tok ∧
    exp_claim tok = Some 301 ∧
    verify_token DEFAULT_SECRET_KEY tok 300999999 = Return (PyStr "alice") ∧
    verify_token DEFAULT_SECRET_KEY tok 301000000 =
      Raise (HTTPExn credentials_exception).
Proof.
  destruct (create_access_token_verify_round_trip DEFAULT_SECRET_KEY "alice"
              (Some (timedelta_minutes 5)) 1500000)
    as (tok & Htok & Hexp & Hbefore & Hafter).
  - vm_compute. split; discriminate.
  - vm_compute. split; discriminate.
  - exists tok. split; [exact Htok|]. split; [exact Hexp|]. split.
    + apply Hbefore. reflexivity.
    + apply Hafter. intros H. discriminate H.
Defined.



(** X3: within the range of [datetime], a zero duration counts as no
    duration, so the token is accepted for 15 minutes; with a negative
    duration the token is rejected at the instant of issuance and at every
    later instant. *)
Theorem zero_and_negative_durations (key user : string) (utcnow : Z) :
  in_datetime_range utcnow →
  (in_datetime_range (utcnow + timedelta_minutes 15) →
   create_access_token key {[ "sub" := PyStr user ]} (Some 0) utcnow =
   create_access_token key {[ "sub" := PyStr user ]} None utcnow ∧
   ∃ tok,
     create_access_token key {[ "sub" := PyStr user ]} (Some 0) utcnow =
       Return tok ∧
     ∀ now, now < (timegm utcnow + 15 * 60) * usec_per_sec →
       verify_token key tok now = Return (PyStr user)) ∧
  (∀ d, d < 0 → in_datetime_range (utcnow + d) →
     ∃ tok,
       create_access_token key {[ "sub" := PyStr user ]} (Some d) utcnow =
         Return tok ∧
       ∀ now, utcnow ≤ now →
         verify_token key tok now = Raise (HTTPExn credentials_exception)).
Proof.
  intros _. split.
  - intros _. split; [reflexivity|]. eexists.
    split; [apply create_subject_token|].
    intros now Hnow. rewrite verify_subject_token.
    change (effective_delta (Some 0)) with (timedelta_minutes 15).
    rewrite timegm_add_minutes. by rewrite decide_False by lia.
  - intros d Hd _. eexists. split; [apply create_subject_token|].
    intros now Hnow. rewrite verify_subject_token.
    assert (Heff : effective_delta (Some d) = d).
    { unfold effective_delta, timedelta_truthy.
      destruct (Z.eqb_spec d 0); [lia|done]. }
    rewrite Heff. rewrite decide_True; [done|].
    unfold timegm, usec_per_sec.
    pose proof (Z.mul_div_le (utcnow + d) 1000000 eq_refl). lia.
Qed.

Lemma zero_and_negative_durations_witness :
  ∃ tok,
    create_access_token DEFAULT_SECRET_KEY {[ "sub" := PyStr "demo" ]}
      (Some (- 1)) 1500000 = Return tok ∧
    ∀ now, 1500000 ≤ now →
      verify_token DEFAULT_SECRET_KEY tok now =
      Raise (HTTPExn credentials_exception).
Proof.
  destruct (zero_and_negative_durations DEFAULT_SECRET_KEY "demo" 1500000)
    as [_ Hneg].
  - vm_compute. split; discriminate.
  - apply (Hneg (- 1)); [reflexivity|]. vm_compute. split; discriminate.
Defined.

Section VerifySoundness.

Variable key : string.

Lemma decode_Return_nbf (tok : jwt.token) (now : Z) (p : gmap string pyval) :
  jwt.decode tok key [ALGORITHM] now = Return p →
  ∀ nbf, token_claims tok !! "nbf" = Some (PyInt nbf) → nbf * usec_per_sec ≤ now.
Proof.
  destruct tok as [raw|alg payload sg]; cbn; [done|].
  destruct (bool_decide (alg ∈ [ALGORITHM])); cbn; [|done].
  destruct (bool_decide (sg = jwt.HMAC alg key payload)); cbn; [|done].
  by intros (_ & _ & Hnbf)%validate_claims_Return.
Qed.

End VerifySoundness.

(** X4: when [verify_token] returns a user name, the token is a JWS under
    HS256 signed with the key, it is not expired, it is not before its
    [nbf], and the user name is its subject claim, which is not [None]. *)
Theorem verify_token_sound (key : string) (tok : jwt.token) (now : Z)
    (user : pyval) :
  verify_token key tok now = Return user →
  signature_valid key tok ∧
  ¬ expired tok now ∧
  (∀ nbf, token_claims tok !! "nbf" = Some (PyInt nbf) →
     nbf * usec_per_sec ≤ now) ∧
  user = dict_get (token_claims tok) "sub" ∧
  user ≠ PyNone.
Proof.
  intros (Hd & Huser & Hnone)%verify_token_Return_decode.
  pose proof (decode_Return_nbf key tok now _ Hd) as Hnbf.
  apply decode_Return in Hd as (_ & Hsig & Hexp).
  repeat split; done.
Qed.

Lemma verify_token_sound_witness :
  signature_valid DEFAULT_SECRET_KEY (signed_token "alice") ∧
  ¬ expired (signed_token "alice") 1000000 ∧
  (∀ nbf, token_claims (signed_token "alice") !! "nbf" = Some (PyInt nbf) →
     nbf * usec_per_sec ≤ 1000000) ∧
  PyStr "alice" = dict_get (token_claims (signed_token "alice")) "sub" ∧
  PyStr "alice" ≠ PyNone.
Proof.
  apply (verify_token_sound DEFAULT_SECRET_KEY (signed_token "alice") 1000000).
  vm_compute. reflexivity.
Defined.

(** X5: a token signed under the key that carries a subject and no expiry
    is accepted at every instant: [verify_token] does not require [exp]. *)
Theorem token_without_expiry_never_expires (key user : string) (now : Z) :
  let payload : gmap string pyval := {[ "sub" := PyStr user ]} in
  let tok := jwt.Jws ALGORITHM payload (jwt.HMAC ALGORITHM key payload) in
  exp_claim tok = None ∧
  verify_token key tok now = Return (PyStr user).
Proof.
  cbn zeta. split.
  - unfold exp_claim. cbn [token_claims]. by rewrite lookup_singleton_ne.
  - apply verify_signed_subject_without_exp.
    + by rewrite lookup_singleton_ne.
    + by rewrite lookup_singleton_ne.
    + by rewrite lookup_singleton_ne.
    + by rewrite lookup_singleton_ne.
    + by rewrite lookup_singleton_eq.
    + by rewrite lookup_singleton_ne.
Qed.

(** X6: [verify_token] raises Unauthorized on every token whose header
    names an algorithm other than HS256, whatever its claims and whatever
    its signature: the algorithm is checked before the signature and
    before the claims. *)
Theorem verify_token_rejects_other_algorithms (key : string) (now : Z)
    (alg : string) (payload : gmap string pyval) (signature : jwt.mac) :
  alg ≠ ALGORITHM →
  verify_token key (jwt.Jws alg payload signature) now =
  Raise (HTTPExn credentials_exception).
Proof.
  intros Halg. unfold verify_token, jwt.decode.
  rewrite bool_decide_eq_false_2; [done|].
  intros Hin%list_elem_of_singleton. done.
Qed.

Lemma verify_token_rejects_other_algorithms_witness :
  verify_token DEFAULT_SECRET_KEY
    (jwt.Jws "none" {[ "sub" := PyStr "demo"; "nbf" := PyNone ]}
       (jwt.HMAC "none" DEFAULT_SECRET_KEY
          {[ "sub" := PyStr "demo"; "nbf" := PyNone ]})) 0 =
    Raise (HTTPExn credentials_exception).
Proof.
  apply verify_token_rejects_other_algorithms.
  intros H. discriminate H.
Defined.

(** ** The application as a whole *)

Section Application.

Variable key : string.

Implicit Types (st : state) (req : request) (env : environment).

Lemma authenticated_cases {A : Type} (authorization : option jwt.token)
    (now : Z) (route : pyval → handler A) st :
  (∃ e, authenticated key authorization now route st = (Raise e, st)) ∨
  (∃ token user,
     authorization = Some token ∧
     verify_token key token now = Return user ∧
     authenticated key authorization now route st = route user st).
Proof.
  unfold authenticated, oauth2_scheme, depends_verify_token.
  destruct authorization as [token|]; [|left; eauto].
  destruct (verify_token key token now) as [user|e] eqn:Hv.
  - right. by exists token, user.
  - left. eauto.
Qed.

Lemma serve_outcome req env st : outcome st req env (serve key req env st).
Proof.
  destruct req as [form|auth|auth facility|auth fid|auth fid|]; cbn [serve].
  - destruct (login key form (handler_clock env)) as [t|e]; cbn.
    + by apply outcome_read.
    + apply outcome_error.
  - unfold respond.
    destruct (authenticated_cases auth (decode_clock env) get_facilities st)
      as [[e ->]|(token & user & _ & _ & ->)]; cbn.
    + apply outcome_error.
    + by apply outcome_read.
  - unfold respond.
    destruct (authenticated_cases auth (decode_clock env)
                (create_facility facility) st)
      as [[e ->]|(token & user & _ & _ & ->)]; cbn.
    + apply outcome_error.
    + by eapply outcome_created.
  - unfold respond.
    destruct (authenticated_cases auth (decode_clock env) (get_facility fid) st)
      as [[e ->]|(token & user & _ & _ & ->)]; cbn.
    + apply outcome_error.
    + unfold get_facility.
      destruct (find_facility (facilities_db st) fid); cbn.
      * by apply outcome_read.
      * apply outcome_error.
  - unfold respond.
    destruct (authenticated_cases auth (decode_clock env)
                (λ u, perform_risk_assessment fid u (uniform_draw env)
                        (handler_clock env)) st)
      as [[e ->]|(token & user & _ & _ & ->)]; cbn.
    + apply outcome_error.
    + destruct (perform_risk_assessment fid user (uniform_draw env)
                  (handler_clock env) st) as [[a|e] st'] eqn:Hp; cbn.
      * by eapply outcome_assessed.
      * assert (st' = st) as ->; [|apply outcome_error].
        unfold perform_risk_assessment in Hp.
        destruct (find_facility (facilities_db st) fid); [|congruence].
        repeat case_match; congruence.
  - by apply outcome_read.
Qed.

Lemma run_nil st : run key [] st = st.
Proof. reflexivity. Qed.

Lemma run_cons req env (rest : list (request * environment)) st :
  run key ((req, env) :: rest) st = run key rest (serve key req env st).2.
Proof. reflexivity. Qed.

Lemma run_app (before after : list (request * environment)) st :
  run key (before ++ after) st = run key after (run key before st).
Proof. unfold run. apply foldl_app. Qed.

(** Under the invariant, a facility of the store has an identifier within
    the bounds. *)
Lemma store_invariant_id_bounds st (f : Facility.t) (i : Z) :
  store_invariant st → f ∈ facilities_db st → Facility.id f = Some i →
  1 ≤ i ≤ Z.of_nat (length (facilities_db st)).
Proof.
  intros (Hids & _ & _) Hf Hi.
  assert (Hin : Some i ∈ Facility.id <$> facilities_db st).
  { rewrite <- Hi. by apply list_elem_of_fmap_2. }
  rewrite Hids in Hin. apply list_elem_of_fmap in Hin as (j & [= <-] & Hj).
  apply elem_of_seqZ in Hj. lia.
Qed.

Lemma serve_store_invariant req env st :
  store_invariant st → store_invariant (serve key req env st).2.
Proof.
  intros Hinv. destruct (serve_outcome req env st)
    as [e|body _ _|auth facility _ stored|auth fid user a st' _ Hp]; cbn [snd];
    try done.
  - destruct Hinv as (Hids & Hcounter & Hlog). unfold store_invariant.
    cbn [facilities_db risk_assessments_db facility_counter].
    rewrite length_app, Nat2Z.inj_add. cbn [length].
    change (Z.of_nat 1) with 1. split; [|split].
    + rewrite fmap_app, Hids.
      rewrite (seqZ_app 1 (Z.of_nat (length (facilities_db st))) 1) by lia.
      rewrite fmap_app. f_equal. cbn. subst stored. cbn.
      rewrite Hcounter. rewrite seqZ_cons by lia. cbn. do 2 f_equal. lia.
    + lia.
    + eapply Forall_impl; [exact Hlog|]. cbn. intros; lia.
  - pose proof Hp as Hfound. unfold perform_risk_assessment in Hfound.
    destruct (find_facility (facilities_db st) fid) as [f|] eqn:Hfind;
      [clear Hfound|congruence].
    apply find_facility_Some in Hfind as [Hin Hid].
    pose proof (store_invariant_id_bounds st f fid Hinv Hin Hid) as Hbound.
    apply perform_risk_assessment_Return in Hp as (Hfid & _ & _ & _ & ->).
    destruct Hinv as (Hids & Hcounter & Hlog). unfold store_invariant.
    cbn [facilities_db risk_assessments_db facility_counter].
    split; [done|]. split; [done|].
    apply Forall_app. split; [done|]. apply Forall_singleton. by rewrite Hfid.
Qed.

Lemma run_store_invariant (requests : list (request * environment)) st :
  store_invariant st → store_invariant (run key requests st).
Proof.
  revert st. induction requests as [|[req env] rest IH]; intros st Hinv.
  - done.
  - rewrite run_cons. by apply IH, serve_store_invariant.
Qed.

Lemma initial_store_invariant : store_invariant initial_state.
Proof. repeat split. constructor. Qed.

(** Under the invariant the lookup by identifier is an indexing. *)
Lemma find_facility_from (db : list Facility.t) (m facility_id : Z) :
  Facility.id <$> db = Some <$> seqZ m (Z.of_nat (length db)) →
  find_facility db facility_id =
  if decide (m ≤ facility_id < m + Z.of_nat (length db))
  then db !! Z.to_nat (facility_id - m)
  else None.
Proof.
  revert m. induction db as [|f db IH]; intros m Hids.
  - cbn. by case_decide.
  - cbn [length] in Hids. rewrite seqZ_cons in Hids by lia.
    replace (Z.pred (Z.of_nat (S (length db)))) with (Z.of_nat (length db))
      in Hids by lia.
    cbn [fmap list_fmap] in Hids. injection Hids as Hf Hrest.
    unfold find_facility in *. cbn [List.find length].
    case_bool_decide as Hid.
    + rewrite Hf in Hid. injection Hid as <-.
      rewrite decide_True by lia. by rewrite Z.sub_diag.
    + rewrite (IH (Z.succ m) Hrest).
      assert (facility_id ≠ m) by (intros ->; by rewrite Hf in Hid).
      case_decide; case_decide; try lia; [|done].
      replace (Z.to_nat (facility_id - m))
        with (S (Z.to_nat (facility_id - Z.succ m))) by lia.
      done.
Qed.

Lemma store_invariant_find st (facility_id : Z) :
  store_invariant st →
  find_facility (facilities_db st) facility_id =
  if decide (1 ≤ facility_id ≤ Z.of_nat (length (facilities_db st)))
  then facilities_db st !! Z.to_nat (facility_id - 1)
  else None.
Proof.
  intros (Hids & _ & _). rewrite (find_facility_from _ 1) by done.
  case_decide; case_decide; try lia; done.
Qed.

(** Every request extends the two lists and does not lower the counter. *)
Lemma serve_extends req env st :
  facilities_db st `prefix_of` facilities_db (serve key req env st).2 ∧
  risk_assessments_db st `prefix_of` risk_assessments_db (serve key req env st).2 ∧
  facility_counter st ≤ facility_counter (serve key req env st).2.
Proof.
  destruct (serve_outcome req env st)
    as [e|body _ _|auth facility _ stored|auth fid user a st' _ Hp]; cbn [snd];
    try done.
  - cbn. split; [by apply prefix_app_r|]. split; [done|lia].
  - apply perform_risk_assessment_Return in Hp as (_ & _ & _ & _ & ->). cbn.
    split; [done|]. split; [by apply prefix_app_r|done].
Qed.

Lemma run_extends (requests : list (request * environment)) st :
  facilities_db st `prefix_of` facilities_db (run key requests st) ∧
  risk_assessments_db st `prefix_of` risk_assessments_db (run key requests st) ∧
  facility_counter st ≤ facility_counter (run key requests st).
Proof.
  revert st. induction requests as [|[req env] rest IH]; intros st.
  - done.
  - rewrite run_cons.
    destruct (serve_extends req env st) as (Hdb & Hlog & Hcounter).
    destruct (IH (serve key req env st).2) as (Hdb' & Hlog' & Hcounter').
    split; [by etrans|]. split; [by etrans|lia].
Qed.

End Application.

(** X7: after any sequence of requests from the initial store, whatever
    their tokens and outcomes, the stored facilities carry the identifiers
    [1, 2, ..., n] in order, without repetition, and the counter is
    [n + 1]. *)
Theorem identifiers_stay_sequential (key : string)
    (requests : list (request * environment)) :
  let st := run key requests initial_state in
  let n := Z.of_nat (length (facilities_db st)) in
  Facility.id <$> facilities_db st = Some <$> seqZ 1 n ∧
  NoDup (Facility.id <$> facilities_db st) ∧
  facility_counter st = n + 1.
Proof.
  intros st n.
  destruct (run_store_invariant key requests initial_state
              initial_store_invariant) as (Hids & Hcounter & _).
  fold st in Hids, Hcounter. fold n in Hids, Hcounter.
  split; [done|]. split; [|done].
  rewrite Hids. apply (NoDup_fmap_2 _), NoDup_seqZ.
Qed.

(** X8: in a store reached from the initial one, [get_facility] returns the
    facility at position [facility_id - 1] when [1 <= facility_id <= n],
    where [n] is the number of facilities, and raises the 404 error for
    every other identifier, zero and negative ones included. *)
Theorem get_facility_within_bounds (key : string)
    (requests : list (request * environment)) (facility_id : Z)
    (current_user : pyval) :
  let st := run key requests initial_state in
  let n := Z.of_nat (length (facilities_db st)) in
  (1 ≤ facility_id ≤ n →
     ∃ f, facilities_db st !! Z.to_nat (facility_id - 1) = Some f ∧
          Facility.id f = Some facility_id ∧
          get_facility facility_id current_user st = (Return f, st)) ∧
  (¬ (1 ≤ facility_id ≤ n) →
     get_facility facility_id current_user st = (Raise (HTTPExn not_found), st)).
Proof.
  intros st n.
  pose proof (run_store_invariant key requests initial_state
                initial_store_invariant) as Hinv.
  fold st in Hinv. unfold get_facility.
  rewrite (store_invariant_find st facility_id Hinv). fold n. split.
  - intros Hin. rewrite decide_True by done.
    destruct (lookup_lt_is_Some_2 (facilities_db st) (Z.to_nat (facility_id - 1)))
      as [f Hf]; [lia|].
    exists f. rewrite Hf. split; [done|]. split; [|done].
    destruct Hinv as (Hids & _ & _). fold n in Hids.
    assert (Hlook : (Facility.id <$> facilities_db st)
                      !! Z.to_nat (facility_id - 1) = Some (Facility.id f))
      by by rewrite list_lookup_fmap, Hf.
    rewrite Hids, list_lookup_fmap, lookup_seqZ_lt in Hlook by lia.
    cbn in Hlook. injection Hlook as <-. f_equal. lia.
  - intros Hout. by rewrite decide_False.
Qed.

Lemma get_facility_within_bounds_witness :
  let requests :=
    [(PostFacilities (Some (signed_token "demo")) sample_facility,
      mkEnvironment 0 0 0.5%float)] in
  (∃ f, get_facility 1 (PyStr "demo") (run DEFAULT_SECRET_KEY requests initial_state)
          = (Return f, run DEFAULT_SECRET_KEY requests initial_state)) ∧
  get_facility 0 (PyStr "demo") (run DEFAULT_SECRET_KEY requests initial_state)
    = (Raise (HTTPExn not_found), run DEFAULT_SECRET_KEY requests initial_state).
Proof.
  cbn zeta.
  destruct (get_facility_within_bounds DEFAULT_SECRET_KEY
              [(PostFacilities (Some (signed_token "demo")) sample_facility,
                mkEnvironment 0 0 0.5%float)] 1 (PyStr "demo")) as [Hin _].
  destruct (get_facility_within_bounds DEFAULT_SECRET_KEY
              [(PostFacilities (Some (signed_token "demo")) sample_facility,
                mkEnvironment 0 0 0.5%float)] 0 (PyStr "demo")) as [_ Hout].
  split.
  - destruct Hin as (f & _ & _ & Hget); [vm_compute; split; discriminate|].
    by exists f.
  - apply Hout. vm_compute. intros [H _]. by apply H.
Defined.

(** X9: a facility that [POST /facilities] has returned, in a store reached
    from the initial one, is what [get_facility] returns for its identifier
    after any further requests. *)
Theorem created_facility_stays_retrievable (key : string)
    (before after : list (request * environment))
    (authorization : option jwt.token) (facility stored : Facility.t)
    (env : environment) (current_user : pyval) :
  let st1 := run key before initial_state in
  let created := serve key (PostFacilities authorization facility) env st1 in
  created.1 = Return (FacilityBody stored) →
  let st2 := run key after created.2 in
  Facility.id stored = Some (facility_counter st1) ∧
  get_facility (facility_counter st1) current_user st2 = (Return stored, st2).
Proof.
  intros st1 created Hcreated st2.
  pose proof (run_store_invariant key before initial_state
                initial_store_invariant) as Hinv1.
  fold st1 in Hinv1.
  pose proof (serve_store_invariant key (PostFacilities authorization facility)
                env st1 Hinv1) as Hinv.
  fold created in Hinv.
  pose proof (run_store_invariant key after created.2 Hinv) as Hinv2.
  fold st2 in Hinv2.
  destruct (run_extends key after created.2) as ([more Hmore] & _ & _).
  fold st2 in Hmore.
  subst created.
  destruct (serve_outcome key (PostFacilities authorization facility) env st1)
    as [e|body Hne _|auth' facility' [= <- <-] stored'|? ? ? ? ? [=] _];
    cbn [fst snd] in *; [discriminate|by destruct (Hne authorization facility)|].
  injection Hcreated as <-. split; [reflexivity|].
  cbn [facilities_db] in Hmore.
  destruct Hinv1 as (_ & Hcounter & _).
  assert (Hlook : facilities_db st2 !! length (facilities_db st1) = Some stored').
  { rewrite Hmore, <- app_assoc. cbn [app]. by apply list_lookup_middle. }
  unfold get_facility. rewrite (store_invariant_find st2 _ Hinv2).
  rewrite Hcounter.
  replace (Z.to_nat (Z.of_nat (length (facilities_db st1)) + 1 - 1))
    with (length (facilities_db st1)) by lia.
  rewrite Hlook. rewrite decide_True; [done|].
  apply lookup_lt_Some in Hlook. lia.
Qed.

Lemma created_facility_stays_retrievable_witness :
  let env := mkEnvironment 0 0 0.5%float in
  let auth := Some (signed_token "demo") in
  let stored := Facility.set_id sample_facility 1 in
  let st2 :=
    run DEFAULT_SECRET_KEY [(PostFacilities auth sample_facility, env)]
      (serve DEFAULT_SECRET_KEY (PostFacilities auth sample_facility) env
         (run DEFAULT_SECRET_KEY [] initial_state)).2 in
  get_facility 1 (PyStr "alice") st2 = (Return stored, st2).
Proof.
  cbn zeta.
  apply (created_facility_stays_retrievable DEFAULT_SECRET_KEY []
           [(PostFacilities (Some (signed_token "demo")) sample_facility,
             mkEnvironment 0 0 0.5%float)]
           (Some (signed_token "demo")) sample_facility
           (Facility.set_id sample_facility 1)
           (mkEnvironment 0 0 0.5%float) (PyStr "alice")).
  vm_compute. reflexivity.
Defined.

(** X10: a sequence of requests only appends: the facilities and the
    assessments of the store it starts from remain, in place and unchanged,
    at the front of the two lists; the counter grows by the number of
    facilities added; and no more records are added than requests served. *)
Theorem requests_only_append (key : string)
    (requests : list (request * environment)) (st : state) :
  ∃ created logged,
    facilities_db (run key requests st) = facilities_db st ++ created ∧
    risk_assessments_db (run key requests st) =
      risk_assessments_db st ++ logged ∧
    facility_counter (run key requests st) =
      facility_counter st + Z.of_nat (length created) ∧
    (length created + length logged ≤ length requests)%nat.
Proof.
  revert st. induction requests as [|[req env] rest IH]; intros st.
  - exists [], []. rewrite run_nil, !app_nil_r. cbn. repeat split; lia.
  - rewrite run_cons.
    destruct (IH (serve key req env st).2)
      as (created & logged & Hdb & Hlog & Hcounter & Hlen).
    rewrite Hdb, Hlog, Hcounter. clear Hdb Hlog Hcounter.
    destruct (serve_outcome key req env st)
      as [e|body _ _|auth facility _ stored|auth fid user a st' _ Hp];
      cbn [snd].
    + exists created, logged. repeat split; cbn [length]; lia.
    + exists created, logged. repeat split; cbn [length]; lia.
    + exists (stored :: created), logged.
      cbn [facilities_db risk_assessments_db facility_counter length].
      rewrite <- app_assoc. repeat split; lia.
    + apply perform_risk_assessment_Return in Hp as (_ & _ & _ & _ & ->).
      exists created, (a :: logged).
      cbn [facilities_db risk_assessments_db facility_counter length].
      rewrite <- app_assoc. repeat split; lia.
Qed.

(** X11: a request that ends in an error leaves the store as it was; only
    [POST /facilities] can change the facilities and the counter; only
    [POST /facilities/{id}/risk-assessment] can change the assessment log. *)
Theorem requests_change_only_their_own_data (key : string) (req : request)
    (env : environment) (st : state) :
  let served := serve key req env st in
  (∀ e, served.1 = Raise e → served.2 = st) ∧
  ((∀ authorization facility, req ≠ PostFacilities authorization facility) →
     facilities_db served.2 = facilities_db st ∧
     facility_counter served.2 = facility_counter st) ∧
  ((∀ authorization facility_id,
      req ≠ PostRiskAssessment authorization facility_id) →
     risk_assessments_db served.2 = risk_assessments_db st).
Proof.
  intros served. subst served.
  destruct (serve_outcome key req env st)
    as [e|body _ _|auth facility Hreq stored|auth fid user a st' Hreq Hp];
    cbn [fst snd].
  - done.
  - done.
  - split; [done|]. split; [|done].
    intros Hne. by destruct (Hne auth facility).
  - apply perform_risk_assessment_Return in Hp as (_ & _ & _ & _ & ->).
    split; [done|]. split; [done|].
    intros Hne. by destruct (Hne auth fid).
Qed.

Lemma requests_change_only_their_own_data_witness :
  let served :=
    serve DEFAULT_SECRET_KEY (PostFacilities None sample_facility)
      (mkEnvironment 0 0 0.5%float) sample_state in
  served.2 = sample_state.
Proof.
  cbn zeta.
  destruct (requests_change_only_their_own_data DEFAULT_SECRET_KEY
              (PostFacilities None sample_facility)
              (mkEnvironment 0 0 0.5%float) sample_state) as (Herr & _).
  apply (Herr (HTTPExn not_authenticated)). reflexivity.
Defined.

Section Authorization.

Variable key : string.

Lemma verify_token_Return_valid (tok : jwt.token) (now : Z) (user : pyval) :
  verify_token key tok now = Return user →
  signature_valid key tok ∧ ¬ expired tok now ∧ ¬ sub_absent tok.
Proof.
  intros (Hd & -> & Hsub)%verify_token_Return_decode.
  apply decode_Return in Hd as (_ & Hsig & Hexp).
  split; [done|]. split; [done|].
  unfold sub_absent. intros Hnone. by rewrite Hnone in Hsub.
Qed.

(** A facility route that returns a body was given a token that
    [verify_token] accepts. *)
Lemma serve_Return_credentials (req : request) (env : environment) (st : state)
    (body : response) (authorization : option jwt.token) :
  (serve key req env st).1 = Return body →
  credentials req = Some authorization →
  ∃ token user,
    authorization = Some token ∧
    verify_token key token (decode_clock env) = Return user.
Proof.
  intros Hbody Hcred.
  destruct req as [form|auth|auth facility|auth fid|auth fid|];
    cbn [credentials] in Hcred; simplify_eq; cbn [serve] in Hbody;
    unfold respond in Hbody; cbn [fst] in Hbody.
  - destruct (authenticated_cases key authorization (decode_clock env)
                get_facilities st) as [[e He]|(token & user & -> & Hv & _)];
      [by rewrite He in Hbody|eauto].
  - destruct (authenticated_cases key authorization (decode_clock env)
                (create_facility facility) st)
      as [[e He]|(token & user & -> & Hv & _)];
      [by rewrite He in Hbody|eauto].
  - destruct (authenticated_cases key authorization (decode_clock env)
                (get_facility fid) st)
      as [[e He]|(token & user & -> & Hv & _)];
      [by rewrite He in Hbody|eauto].
  - destruct (authenticated_cases key authorization (decode_clock env)
                (λ u, perform_risk_assessment fid u (uniform_draw env)
                        (handler_clock env)) st)
      as [[e He]|(token & user & -> & Hv & _)];
      [by rewrite He in Hbody|eauto].
Qed.

End Authorization.

(** X12: when a facility route returns a body, the request carried a bearer
    token that is a JWS under HS256 signed with the key, not expired at the
    instant of the check, and bearing a subject; a successful [POST /token]
    was given the demo credentials. *)
Theorem responses_require_valid_credentials (key : string) (req : request)
    (env : environment) (st : state) (body : response) :
  (serve key req env st).1 = Return body →
  (∀ authorization, credentials req = Some authorization →
     ∃ token,
       authorization = Some token ∧
       signature_valid key token ∧
       ¬ expired token (decode_clock env) ∧
       ¬ sub_absent token) ∧
  (∀ form_data, req = PostToken form_data →
     username form_data = "demo" ∧ password form_data = "demo").
Proof.
  intros Hbody. split.
  - intros authorization Hcred.
    destruct (serve_Return_credentials key req env st body authorization
                Hbody Hcred) as (token & user & -> & Hv).
    exists token. split; [done|]. by eapply verify_token_Return_valid.
  - intros form -> . cbn [serve fst] in Hbody.
    destruct (login key form (handler_clock env)) as [t|e] eqn:Hlogin;
      [|discriminate].
    by rewrite (login_Return_inv key form _ t Hlogin).
Qed.

Lemma responses_require_valid_credentials_witness :
  ∃ token,
    Some (signed_token "alice") = Some token ∧
    signature_valid DEFAULT_SECRET_KEY token ∧
    ¬ expired token 1000000 ∧
    ¬ sub_absent token.
Proof.
  destruct (responses_require_valid_credentials DEFAULT_SECRET_KEY
              (GetFacilities (Some (signed_token "alice")))
              (mkEnvironment 1000000 0 0.5%float) sample_state
              (FacilitiesBody (facilities_db sample_state)))
    as [Hcred _].
  - vm_compute. reflexivity.
  - apply Hcred. reflexivity.
Defined.

(** X13: in a store reached from the initial one, every logged assessment
    names a stored facility: [get_facility] on its [facility_id] returns
    the facility with that identifier. *)
Theorem logged_assessments_name_stored_facilities (key : string)
    (requests : list (request * environment)) (a : RiskAssessment.t)
    (current_user : pyval) :
  let st := run key requests initial_state in
  a ∈ risk_assessments_db st →
  ∃ f, get_facility (RiskAssessment.facility_id a) current_user st =
         (Return f, st) ∧
       Facility.id f = Some (RiskAssessment.facility_id a).
Proof.
  intros st Ha.
  pose proof (run_store_invariant key requests initial_state
                initial_store_invariant) as Hinv.
  fold st in Hinv.
  assert (Hbound : 1 ≤ RiskAssessment.facility_id a
                   ≤ Z.of_nat (length (facilities_db st))).
  { destruct Hinv as (_ & _ & Hlog). rewrite Forall_forall in Hlog.
    by apply Hlog. }
  unfold get_facility.
  destruct (find_facility (facilities_db st) (RiskAssessment.facility_id a))
    as [f|] eqn:Hfind.
  - exists f. split; [done|]. by apply find_facility_Some in Hfind as [_ Hid].
  - rewrite (store_invariant_find st _ Hinv) in Hfind.
    rewrite decide_True in Hfind by done.
    apply lookup_ge_None in Hfind. lia.
Qed.

Lemma logged_assessments_name_stored_facilities_witness :
  let requests :=
    [(PostFacilities (Some (signed_token "demo")) sample_facility,
      mkEnvironment 0 0 0.5%float);
     (PostRiskAssessment (Some (signed_token "demo")) 1,
      mkEnvironment 0 7 0.5%float)] in
  ∃ f, get_facility 1 (PyStr "demo")
         (run DEFAULT_SECRET_KEY requests initial_state) =
       (Return f, run DEFAULT_SECRET_KEY requests initial_state) ∧
       Facility.id f = Some 1.
Proof.
  cbn zeta.
  apply (logged_assessments_name_stored_facilities DEFAULT_SECRET_KEY
           [(PostFacilities (Some (signed_token "demo")) sample_facility,
             mkEnvironment 0 0 0.5%float);
            (PostRiskAssessment (Some (signed_token "demo")) 1,
             mkEnvironment 0 7 0.5%float)]
           (RiskAssessment.mk 1 0.5%float "Medium" medium_recommendations 7)
           (PyStr "demo")).
  vm_compute. left.
Defined.

(** X14: the token [login] issues opens every route behind
    [Depends(verify_token)] to the user "demo" at each instant before the
    expiry it carries; from that expiry on, and without a token, the route
    is not entered and the store is left as it was. *)
Theorem login_token_opens_routes_until_expiry {A : Type} (key : string)
    (utcnow : Z) (route : pyval → handler A) (st : state) :
  ∃ tok,
    login key demo_form utcnow =
      Return {| access_token := tok; token_type := "bearer" |} ∧
    let expiry := (timegm utcnow + 30 * 60) * usec_per_sec in
    (∀ now, now < expiry →
       authenticated key (Some tok) now route st = route (PyStr "demo") st) ∧
    (∀ now, expiry ≤ now →
       authenticated key (Some tok) now route st =
       (Raise (HTTPExn credentials_exception), st)) ∧
    (∀ now, authenticated key None now route st =
            (Raise (HTTPExn not_authenticated), st)).
Proof.
  eexists. split; [apply login_demo_token|]. cbn zeta.
  unfold authenticated, oauth2_scheme, depends_verify_token.
  split; [|split].
  - intros now Hnow. rewrite verify_demo_token. by rewrite decide_False by lia.
  - intros now Hnow. rewrite verify_demo_token. by rewrite decide_True by lia.
  - done.
Qed.

Lemma login_token_opens_routes_until_expiry_witness :
  ∃ tok,
    login DEFAULT_SECRET_KEY demo_form 1500000 =
      Return {| access_token := tok; token_type := "bearer" |} ∧
    authenticated DEFAULT_SECRET_KEY (Some tok) 1800999999
      (create_facility sample_facility) initial_state =
      create_facility sample_facility (PyStr "demo") initial_state ∧
    authenticated DEFAULT_SECRET_KEY (Some tok) 1801000000
      (create_facility sample_facility) initial_state =
      (Raise (HTTPExn credentials_exception), initial_state).
Proof.
  destruct (login_token_opens_routes_until_expiry DEFAULT_SECRET_KEY 1500000
              (create_facility sample_facility) initial_state)
    as (tok & Htok & Hbefore & Hafter & _).
  exists tok. split; [exact Htok|]. split.
  - apply Hbefore. reflexivity.
  - apply Hafter. intros H. discriminate H.
Defined.

(** ** The score and the draw *)

Section ScoreOfDraw.

(** Rounding stays below an even integer exactly when the quotient stays
    below the half before it: a tie at that half goes up to the even one. *)
Lemma half_even_lt_even (n d K : Z) :
  0 < d → Z.even K = true →
  half_even n d < K ↔ 2 * n < (2 * K - 1) * d.
Proof.
  intros Hd HK. unfold half_even.
  pose proof (Z.div_mod n d ltac:(lia)) as Hn.
  pose proof (Z.mod_pos_bound n d Hd) as Hr.
  set (q := n / d) in *. set (r := n mod d) in *.
  apply Z.even_spec in HK as [K' ->].
  destruct (Z.ltb_spec (2 * r) d) as [Hlt|Hge]; [split; intros; nia|].
  destruct (Z.ltb_spec d (2 * r)) as [Hgt|Hle]; [split; intros; nia|].
  assert (Htie : 2 * r = d) by lia.
  destruct (Z.even q) eqn:Hq.
  - apply Z.even_spec in Hq as [q' Hq']. split; intros; nia.
  - split; intros; nia.
Qed.

(** The score of a draw between 0.1 and 0.9, from the exact value of the
    draw. *)
Lemma round2_exact (u : float) (q : Q) :
  between 0.1 0.9 u → exact_value u = Some q →
  let k := half_even (100 * Qnum q) (QDen q) in
  round2 u = of_hundredths k ∧ 10 ≤ k ≤ 90.
Proof.
  intros (qa & qb & qu & Ha & Hb & Hu & Hlo & Hhi) Hq.
  rewrite Hq in Hu. injection Hu as <-.
  vm_compute in Ha, Hb. injection Ha as <-. injection Hb as <-.
  unfold exact_value in Hq. unfold round2.
  destruct (Prim2SF u) as [sg| | |sg m e]; try discriminate.
  - injection Hq as <-. exfalso. revert Hlo. unfold Qle. cbn. lia.
  - injection Hq as <-. destruct (Z.leb_spec 0 e) as [He|He].
    + exfalso. unfold Qle in Hlo, Hhi. cbn [Qnum Qden inject_Z] in Hlo, Hhi.
      pose proof (Z.pow_pos_nonneg 2 e ltac:(lia) He).
      destruct sg; nia.
    + unfold Qle in Hlo, Hhi. cbn [Qnum Qden] in Hlo, Hhi. cbn [Qnum Qden].
      rewrite pow2_to_pos in * by done.
      pose proof (Z.pow_pos_nonneg 2 (- e) ltac:(lia) ltac:(lia)) as Hd.
      set (d := 2 ^ (- e)) in *.
      destruct sg; [exfalso; lia|].
      split; [reflexivity|]. apply half_even_bounds; lia.
Qed.

Lemma perform_risk_assessment_well_scored (facility_id : Z)
    (current_user : pyval) (uniform : float) (utcnow : Z) (st st' : state)
    (a : RiskAssessment.t) :
  between 0.1 0.9 uniform →
  perform_risk_assessment facility_id current_user uniform utcnow st =
    (Return a, st') →
  well_scored a.
Proof.
  intros [k [Hk Hround]]%round2_between
    (_ & Hscore & _ & Hlevel & _)%perform_risk_assessment_Return.
  unfold well_scored. rewrite Hscore, Hround in *. clear Hscore Hround.
  destruct (hundredths_compare k Hk) as (Hlo & Hhi & H03 & H30 & H07 & H70).
  split; [done|]. split; [done|]. unfold level_of_score.
  destruct (of_hundredths k <? 0.3)%float eqn:Hlt3;
    [|destruct (of_hundredths k <? 0.7)%float eqn:Hlt7];
    injection Hlevel as -> ->.
  - split; [by left|reflexivity].
  - assert (¬ k < 30) by (intros Hc%H03; discriminate).
    split; [|reflexivity]. right; left. repeat split. apply H30. lia.
  - assert (¬ k < 70) by (intros Hc%H07; discriminate).
    split; [|reflexivity]. right; right. split; [|done]. apply H70. lia.
Qed.

End ScoreOfDraw.

(** X15: because the draw is rounded before it is compared, the level of a
    returned assessment is decided by the draw at 0.295 and 0.695: Low for a
    draw below 0.295, Medium from 0.295 and below 0.695, High from 0.695. *)
Theorem level_cut_points_of_draw (facility_id : Z) (current_user : pyval)
    (uniform : float) (utcnow : Z) (st st' : state) (a : RiskAssessment.t)
    (q : Q) :
  between 0.1 0.9 uniform →
  exact_value uniform = Some q →
  perform_risk_assessment facility_id current_user uniform utcnow st =
    (Return a, st') →
  (RiskAssessment.risk_level a = "Low" ↔ (q < 59 # 200)%Q) ∧
  (RiskAssessment.risk_level a = "Medium" ↔
     (59 # 200 <= q)%Q ∧ (q < 139 # 200)%Q) ∧
  (RiskAssessment.risk_level a = "High" ↔ (139 # 200 <= q)%Q).
Proof.
  intros Hbetween Hq (_ & Hscore & _ & Hlevel & _)%perform_risk_assessment_Return.
  destruct (round2_exact uniform q Hbetween Hq) as [Hround Hk].
  cbn zeta in Hround, Hk.
  set (k := half_even (100 * Qnum q) (QDen q)) in *.
  rewrite Hround in Hlevel.
  destruct (hundredths_compare k Hk) as (_ & _ & H03 & _ & H07 & _).
  pose proof (half_even_lt_even (100 * Qnum q) (QDen q) 30 eq_refl eq_refl) as H30.
  pose proof (half_even_lt_even (100 * Qnum q) (QDen q) 70 eq_refl eq_refl) as H70.
  fold k in H30, H70.
  unfold Qlt, Qle. cbn [Qnum Qden].
  destruct (of_hundredths k <? 0.3)%float eqn:Hlt3;
    [|destruct (of_hundredths k <? 0.7)%float eqn:Hlt7];
    injection Hlevel as -> _.
  - assert (Hn : 2 * (100 * Qnum q) < (2 * 30 - 1) * QDen q)
      by by apply H30, H03.
    repeat split; intros; try done; lia.
  - assert (Hn : ¬ 2 * (100 * Qnum q) < (2 * 30 - 1) * QDen q)
      by (intros Hc%H30%H03; discriminate).
    assert (Hm : 2 * (100 * Qnum q) < (2 * 70 - 1) * QDen q)
      by by apply H70, H07.
    repeat split; intros; try done; lia.
  - assert (Hn : ¬ 2 * (100 * Qnum q) < (2 * 70 - 1) * QDen q)
      by (intros Hc%H70%H07; discriminate).
    repeat split; intros; try done; lia.
Qed.

Lemma level_cut_points_of_draw_witness :
  ∃ a st',
    perform_risk_assessment 1 (PyStr "demo") 0.296%float 0 sample_state =
      (Return a, st') ∧
    RiskAssessment.risk_level a = "Medium".
Proof.
  eexists _, _. split; [vm_compute; reflexivity|].
  assert (Hq : ∃ q, exact_value 0.296 = Some q ∧
                    (59 # 200 <= q)%Q ∧ (q < 139 # 200)%Q).
  { eexists. split; [vm_compute; reflexivity|].
    split; vm_compute; [discriminate|reflexivity]. }
  destruct Hq as (q & Hq & Hlo & Hhi).
  assert (Hbetween : between 0.1 0.9 0.296).
  { eexists _, _, _. split; [vm_compute; reflexivity|].
    split; [vm_compute; reflexivity|]. split; [vm_compute; reflexivity|].
    split; vm_compute; discriminate. }
  apply (level_cut_points_of_draw 1 (PyStr "demo") 0.296%float 0 sample_state
           _ _ q Hbetween Hq eq_refl).
  split; [exact Hlo|exact Hhi].
Defined.

Section ScoredLog.

Variable key : string.

Lemma serve_well_scored (req : request) (env : environment) (st : state) :
  between 0.1 0.9 (uniform_draw env) →
  Forall well_scored (risk_assessments_db st) →
  Forall well_scored (risk_assessments_db (serve key req env st).2).
Proof.
  intros Hdraw Hlog.
  destruct (serve_outcome key req env st)
    as [e|body _ _|auth facility _ stored|auth fid user a st' _ Hp];
    cbn [snd risk_assessments_db]; try done.
  pose proof (perform_risk_assessment_well_scored _ _ _ _ _ _ _ Hdraw Hp) as Ha.
  apply perform_risk_assessment_Return in Hp as (_ & _ & _ & _ & ->).
  cbn [risk_assessments_db]. apply Forall_app. split; [done|].
  by apply Forall_singleton.
Qed.

End ScoredLog.

(** X16: when every draw of a sequence of requests lies between 0.1 and
    0.9, every assessment in the log the sequence leaves, starting from the
    initial store, has a score between 0.1 and 0.9, the level of that score
    and the recommendations of that level. *)
Theorem logged_assessments_are_well_scored (key : string)
    (requests : list (request * environment)) :
  Forall (λ re, between 0.1 0.9 (uniform_draw re.2)) requests →
  Forall well_scored (risk_assessments_db (run key requests initial_state)).
Proof.
  assert (Hgen : ∀ st,
    Forall (λ re, between 0.1 0.9 (uniform_draw re.2)) requests →
    Forall well_scored (risk_assessments_db st) →
    Forall well_scored (risk_assessments_db (run key requests st))).
  { induction requests as [|[req env] rest IH]; intros st Hdraws Hlog.
    - done.
    - rewrite run_cons. apply Forall_cons in Hdraws as [Hdraw Hdraws].
      apply IH; [done|]. by apply serve_well_scored. }
  intros Hdraws. apply Hgen; [done|]. constructor.
Qed.

Lemma logged_assessments_are_well_scored_witness :
  Forall well_scored
    (risk_assessments_db
       (run DEFAULT_SECRET_KEY
          [(PostFacilities (Some (signed_token "demo")) sample_facility,
            mkEnvironment 0 0 0.5%float);
           (PostRiskAssessment (Some (signed_token "demo")) 1,
            mkEnvironment 0 7 0.75%float)]
          initial_state)).
Proof.
  apply logged_assessments_are_well_scored.
  assert (Hhalf : between 0.1 0.9 0.5).
  { eexists _, _, _. split; [vm_compute; reflexivity|].
    split; [vm_compute; reflexivity|]. split; [vm_compute; reflexivity|].
    split; vm_compute; discriminate. }
  assert (Hhigh : between 0.1 0.9 0.75).
  { eexists _, _, _. split; [vm_compute; reflexivity|].
    split; [vm_compute; reflexivity|]. split; [vm_compute; reflexivity|].
    split; vm_compute; discriminate. }
  repeat constructor; assumption.
Defined.
